(** * Verification model of the wegathon travel-planner backend

    Shallow embedding of the Python services under
    [python-backend/app/services] and [python-backend/app/tools]:
    the output normalizer [normalize_to_contract] (planner.py), the
    numeric coercions it uses, the end-date computation of prompt_parser.py,
    [MCPClient.call_tool] (mcp_client.py), the session pool (mcp_pool.py),
    the rate-limit retry loop of [chat_with_tools] (anthropic_client.py),
    the JSON guard and turn loop of [generate] (planner.py) and the tool
    catalogue cache of [get_mcp_tools_schema] (adapters.py).

    Modelling conventions.
    - JSON/Python values are [PyVal]; dicts are association lists with
      string keys, in insertion order (Python dicts keep insertion order).
    - Python floats are modelled as exact decimals [Dec] (value
      [dm * 10^de], trailing zeros removed) plus infinities and NaN:
      rounding to binary64 and overflow of huge decimal literals are not
      modelled.  The values compared in the theorems are short decimals,
      whose binary64 images are distinct exactly when the decimals are.
    - Text is ASCII: [str.lower], [str.strip] and the [\d] class act on
      ASCII characters only, and the non-ASCII keys of the translation
      tables are left out (they never match ASCII text).
    - Exceptions are [PyExc kind msg]; a function that may raise returns
      [result]. *)

From Stdlib Require Import String Ascii List ZArith QArith Bool Lia.
Import ListNotations.

Set Warnings "-register-all".
Open Scope Z_scope.
Open Scope string_scope.

(** ** Python values *)

Record Dec := mkDec { dm : Z; de : Z }.

Inductive PyFloat :=
| FFin (d : Dec)
| FInf (neg : bool)
| FNaN.

Inductive PyVal :=
| PNone
| PBool (b : bool)
| PInt (z : Z)
| PFloat (f : PyFloat)
| PStr (s : string)
| PList (l : list PyVal)
| PDict (d : list (string * PyVal)).

Inductive exn := PyExc (kind : string) (msg : string).

Inductive result (A : Type) :=
| Ok (a : A)
| Err (e : exn).
Arguments Ok {A} a.
Arguments Err {A} e.

Definition bind {A B} (m : result A) (k : A -> result B) : result B :=
  match m with Ok a => k a | Err e => Err e end.

Notation "x <- m ;; k" := (bind m (fun x => k))
  (at level 61, m at next level, right associativity).

Definition exn_kind (e : exn) : string := match e with PyExc k _ => k end.

(** [except (ValueError, TypeError)] *)
Definition value_or_type_error (e : exn) : bool :=
  String.eqb (exn_kind e) "ValueError" || String.eqb (exn_kind e) "TypeError".

(** ** Decimals *)

Fixpoint dec_norm_fuel (fuel : nat) (m e : Z) : Dec :=
  match fuel with
  | O => mkDec m e
  | S f =>
      if Z.eqb m 0 then mkDec 0 0
      else if Z.eqb (Z.rem m 10) 0 then dec_norm_fuel f (Z.quot m 10) (e + 1)
      else mkDec m e
  end.

Definition dec_norm (m e : Z) : Dec :=
  dec_norm_fuel (S (Z.to_nat (Z.log2_up (Z.abs m)))) m e.

Definition dec_to_Q (d : Dec) : Q :=
  if Z.leb 0 (de d) then inject_Z (dm d * 10 ^ de d)
  else Qmake (dm d) (Z.to_pos (10 ^ (- de d))).

(** The decimal literal [m * 10^e] as a Python float. *)
Definition fdec (m e : Z) : PyVal := PFloat (FFin (dec_norm m e)).

(** ** Characters and strings *)

Definition is_digit (c : ascii) : bool :=
  let n := nat_of_ascii c in (48 <=? n)%nat && (n <=? 57)%nat.

Definition digit_val (c : ascii) : Z := Z.of_nat (nat_of_ascii c - 48).

(** Python's [str.isspace] on ASCII: \t \n \x0b \x0c \r, \x1c-\x1f, space. *)
Definition is_space (c : ascii) : bool :=
  let n := nat_of_ascii c in
  ((9 <=? n)%nat && (n <=? 13)%nat) || ((28 <=? n)%nat && (n <=? 32)%nat).

Definition lower_char (c : ascii) : ascii :=
  let n := nat_of_ascii c in
  if (65 <=? n)%nat && (n <=? 90)%nat then ascii_of_nat (n + 32) else c.

Fixpoint drop_spaces (l : list ascii) : list ascii :=
  match l with
  | c :: r => if is_space c then drop_spaces r else l
  | [] => []
  end.

(** [s.strip()] *)
Definition py_strip (s : string) : string :=
  string_of_list_ascii (rev (drop_spaces (rev (drop_spaces (list_ascii_of_string s))))).

(** [s.lower()] *)
Definition py_lower (s : string) : string :=
  string_of_list_ascii (map lower_char (list_ascii_of_string s)).

(** [sub in s] for strings *)
Fixpoint str_contains (sub s : string) : bool :=
  if String.prefix sub s then true
  else match s with
       | EmptyString => false
       | String _ r => str_contains sub r
       end.

(** [s.split(sep)[0]] for a one-character separator. *)
Fixpoint split_first (sep : ascii) (s : string) : string :=
  match s with
  | EmptyString => EmptyString
  | String c r => if Ascii.eqb c sep then EmptyString else String c (split_first sep r)
  end.

(** [re.sub(r'[^\d.]', '', s)] *)
Fixpoint keep_digits_dots (s : string) : string :=
  match s with
  | EmptyString => EmptyString
  | String c r =>
      if is_digit c || Ascii.eqb c "." then String c (keep_digits_dots r)
      else keep_digits_dots r
  end.

(** ** Python's [float(str)] and [int(str)] grammars *)

(** digitpart ::= digit (["_"] digit)* ; returns the digits and the rest. *)
Fixpoint digitpart_rest (l : list ascii) : list ascii * list ascii :=
  match l with
  | c :: r =>
      if is_digit c then let '(ds, rest) := digitpart_rest r in (c :: ds, rest)
      else if Ascii.eqb c "_" then
        match r with
        | d :: r' => if is_digit d then let '(ds, rest) := digitpart_rest r' in (d :: ds, rest)
                     else ([], l)
        | [] => ([], l)
        end
      else ([], l)
  | [] => ([], [])
  end.

Definition digitpart (l : list ascii) : option (list ascii * list ascii) :=
  match l with
  | c :: r => if is_digit c then let '(ds, rest) := digitpart_rest r in Some (c :: ds, rest)
              else None
  | [] => None
  end.

Definition digits_value (ds : list ascii) : Z :=
  fold_left (fun acc c => acc * 10 + digit_val c) ds 0.

Definition take_sign (l : list ascii) : bool * list ascii :=
  match l with
  | c :: r => if Ascii.eqb c "-" then (true, r)
              else if Ascii.eqb c "+" then (false, r) else (false, l)
  | [] => (false, [])
  end.

(** exponent ::= ("e" | "E") [sign] digitpart, then end of input *)
Definition exponent_end (l : list ascii) : option Z :=
  match l with
  | [] => Some 0
  | c :: r =>
      if Ascii.eqb (lower_char c) "e" then
        let '(neg, r') := take_sign r in
        match digitpart r' with
        | Some (ds, []) => Some (if neg then - digits_value ds else digits_value ds)
        | _ => None
        end
      else None
  end.

(** unsigned numeric value: (mantissa, exponent) *)
Definition numeric_value (l : list ascii) : option (Z * Z) :=
  match digitpart l with
  | Some (ip, r) =>
      let '(fp, r2) :=
        match r with
        | c :: r' => if Ascii.eqb c "." then
                       match digitpart r' with Some (fp, r'') => (fp, r'') | None => ([], r') end
                     else ([], r)
        | [] => ([], [])
        end in
      match exponent_end r2 with
      | Some x => Some (digits_value (ip ++ fp), x - Z.of_nat (length fp))
      | None => None
      end
  | None =>
      match l with
      | c :: r' =>
          if Ascii.eqb c "." then
            match digitpart r' with
            | Some (fp, r'') =>
                match exponent_end r'' with
                | Some x => Some (digits_value fp, x - Z.of_nat (length fp))
                | None => None
                end
            | None => None
            end
          else None
      | [] => None
      end
  end.

(** [float(s)] for a string [s]; [None] is a ValueError. *)
Definition py_float_of_string (s : string) : option PyFloat :=
  let body := list_ascii_of_string (py_strip s) in
  let '(neg, r) := take_sign body in
  let word := py_lower (string_of_list_ascii r) in
  if String.eqb word "inf" || String.eqb word "infinity" then Some (FInf neg)
  else if String.eqb word "nan" then Some FNaN
  else match numeric_value r with
       | Some (m, e) => Some (FFin (dec_norm (if neg then - m else m) e))
       | None => None
       end.

(** [int(s)] for a string [s] (base 10); [None] is a ValueError. *)
Definition py_int_of_string (s : string) : option Z :=
  let body := list_ascii_of_string (py_strip s) in
  let '(neg, r) := take_sign body in
  match digitpart r with
  | Some (ds, []) => Some (if neg then - digits_value ds else digits_value ds)
  | _ => None
  end.

(** Largest integer magnitude that [float(int)] accepts: rounding reaches
    2^1024 (OverflowError) from 2^1024 - 2^970 on. *)
Definition float_int_limit : Z := 2 ^ 1024 - 2 ^ 970.

(** [float(v)] *)
Definition py_float (v : PyVal) : result PyFloat :=
  match v with
  | PBool b => Ok (FFin (dec_norm (if b then 1 else 0) 0))
  | PInt z => if Z.leb float_int_limit (Z.abs z)
              then Err (PyExc "OverflowError" "int too large to convert to float")
              else Ok (FFin (dec_norm z 0))
  | PFloat f => Ok f
  | PStr s => match py_float_of_string s with
              | Some f => Ok f
              | None => Err (PyExc "ValueError" "could not convert string to float")
              end
  | _ => Err (PyExc "TypeError" "float() argument must be a string or a real number")
  end.

(** [int(v)] *)
Definition py_int (v : PyVal) : result Z :=
  match v with
  | PBool b => Ok (if b then 1 else 0)
  | PInt z => Ok z
  | PFloat (FFin d) =>
      Ok (if Z.leb 0 (de d) then dm d * 10 ^ de d else Z.quot (dm d) (10 ^ (- de d)))
  | PFloat (FInf _) => Err (PyExc "OverflowError" "cannot convert float infinity to integer")
  | PFloat FNaN => Err (PyExc "ValueError" "cannot convert float NaN to integer")
  | PStr s => match py_int_of_string s with
              | Some z => Ok z
              | None => Err (PyExc "ValueError" "invalid literal for int() with base 10")
              end
  | _ => Err (PyExc "TypeError" "int() argument must be a string or a real number")
  end.

(** ** Dicts, truthiness and [str()] *)

Definition dict : Type := list (string * PyVal).

Fixpoint dict_lookup (d : dict) (k : string) : option PyVal :=
  match d with
  | [] => None
  | (k', v) :: r => if String.eqb k k' then Some v else dict_lookup r k
  end.

(** [d.get(k, default)] and [d.get(k)] *)
Definition get_default (d : dict) (k : string) (default : PyVal) : PyVal :=
  match dict_lookup d k with Some v => v | None => default end.

Definition get (d : dict) (k : string) : PyVal := get_default d k PNone.

Definition has_key (d : dict) (k : string) : bool :=
  match dict_lookup d k with Some _ => true | None => false end.

(** [d[k] = v]: replaces in place, or appends a new key. *)
Fixpoint dict_set (d : dict) (k : string) (v : PyVal) : dict :=
  match d with
  | [] => [(k, v)]
  | (k', v') :: r => if String.eqb k k' then (k', v) :: r else (k', v') :: dict_set r k v
  end.

(** [d.setdefault(k, v)] *)
Definition setdefault (d : dict) (k : string) (v : PyVal) : dict :=
  if has_key d k then d else app d [(k, v)].

Definition float_truthy (f : PyFloat) : bool :=
  match f with FFin d => negb (Z.eqb (dm d) 0) | _ => true end.

(** [bool(v)] *)
Definition truthy (v : PyVal) : bool :=
  match v with
  | PNone => false
  | PBool b => b
  | PInt z => negb (Z.eqb z 0)
  | PFloat f => float_truthy f
  | PStr s => negb (String.eqb s EmptyString)
  | PList l => match l with [] => false | _ => true end
  | PDict d => match d with [] => false | _ => true end
  end.

(** [a or b] *)
Definition py_or (a b : PyVal) : PyVal := if truthy a then a else b.

Definition is_dict (v : PyVal) : option dict :=
  match v with PDict d => Some d | _ => None end.

(** [_as_list(val)] *)
Definition _as_list (v : PyVal) : list PyVal :=
  match v with PNone => [] | PList l => l | _ => [v] end.

(** [_as_list(val) or None] *)
Definition as_list_or_none (v : PyVal) : PyVal :=
  match _as_list v with [] => PNone | l => PList l end.

Fixpoint mapM {A B} (f : A -> result B) (l : list A) : result (list B) :=
  match l with
  | [] => Ok []
  | x :: r => y <- f x ;; ys <- mapM f r ;; Ok (y :: ys)
  end.

Definition digit_char (n : Z) : ascii := ascii_of_nat (48 + Z.to_nat n).

Fixpoint pos_digits_fuel (fuel : nat) (n : Z) (acc : string) : string :=
  match fuel with
  | O => acc
  | S f => if Z.ltb n 10 then String (digit_char n) acc
           else pos_digits_fuel f (n / 10) (String (digit_char (n mod 10)) acc)
  end.

(** decimal digits of a non-negative integer *)
Definition nat_digits (n : Z) : string :=
  pos_digits_fuel (S (Z.to_nat (Z.log2_up (n + 1)))) n EmptyString.

(** [repr(int)] *)
Definition repr_int (z : Z) : string :=
  if Z.ltb z 0 then "-" ++ nat_digits (- z) else nat_digits z.

Fixpoint zeros (n : nat) : string :=
  match n with O => EmptyString | S k => String "0" (zeros k) end.

(** [repr(float)]: positional for exponents -4..15, scientific otherwise. *)
Definition repr_dec (d : Dec) : string :=
  if Z.eqb (dm d) 0 then "0.0" else
  let sign := if Z.ltb (dm d) 0 then "-" else EmptyString in
  let ds := nat_digits (Z.abs (dm d)) in
  let n := Z.of_nat (String.length ds) in
  let x := n + de d - 1 in
  if Z.leb (-4) x && Z.ltb x 16 then
    if Z.leb 0 (de d) then sign ++ ds ++ zeros (Z.to_nat (de d)) ++ ".0"
    else if Z.ltb 0 (n + de d) then
      sign ++ substring 0 (Z.to_nat (n + de d)) ds ++ "." ++
      substring (Z.to_nat (n + de d)) (String.length ds) ds
    else sign ++ "0." ++ zeros (Z.to_nat (- (n + de d))) ++ ds
  else
    let mant := match ds with
                | String c EmptyString => String c EmptyString
                | String c r => String c ("." ++ r)
                | EmptyString => EmptyString
                end in
    let ax := nat_digits (Z.abs x) in
    sign ++ mant ++ "e" ++ (if Z.ltb x 0 then "-" else "+") ++
    (if Z.ltb (Z.abs x) 10 then "0" ++ ax else ax).

Definition repr_float (f : PyFloat) : string :=
  match f with
  | FFin d => repr_dec d
  | FInf neg => if neg then "-inf" else "inf"
  | FNaN => "nan"
  end.

Definition hex_char (n : nat) : ascii :=
  if (n <? 10)%nat then ascii_of_nat (48 + n) else ascii_of_nat (87 + n).

(** one character of [repr(str)] quoted with [q] *)
Definition repr_char (q : ascii) (c : ascii) : string :=
  let n := nat_of_ascii c in
  if Ascii.eqb c "\" then "\\"
  else if Ascii.eqb c q then String "\" (String c EmptyString)
  else if (n =? 9)%nat then "\t"
  else if (n =? 10)%nat then "\n"
  else if (n =? 13)%nat then "\r"
  else if (n <? 32)%nat || (n =? 127)%nat then
    String "\" (String "x" (String (hex_char (n / 16)) (String (hex_char (n mod 16)) EmptyString)))
  else String c EmptyString.

Definition repr_str (s : string) : string :=
  let dq := ascii_of_nat 34 in
  let sq := ascii_of_nat 39 in
  let q := if str_contains (String sq EmptyString) s && negb (str_contains (String dq EmptyString) s)
           then dq else sq in
  String q (String.concat EmptyString (map (repr_char q) (list_ascii_of_string s)) ++ String q EmptyString).

Fixpoint repr (v : PyVal) : string :=
  match v with
  | PNone => "None"
  | PBool b => if b then "True" else "False"
  | PInt z => repr_int z
  | PFloat f => repr_float f
  | PStr s => repr_str s
  | PList l => "[" ++ String.concat ", " (map repr l) ++ "]"
  | PDict d =>
      "{" ++ String.concat ", " (map (fun kv => repr_str (fst kv) ++ ": " ++ repr (snd kv)) d) ++ "}"
  end.

(** [str(v)] *)
Definition py_str (v : PyVal) : string :=
  match v with PStr s => s | _ => repr v end.

(** ** planner.py: numeric coercions *)

(** The string branch shared by the price coercions and [extract_amount]:
    [cleaned = re.sub(r'[^\d.]', '', s)];
    [float(cleaned) if cleaned else None], ValueError giving None. *)
Definition amount_of_string (s : string) : PyVal :=
  let cleaned := keep_digits_dots s in
  if String.eqb cleaned EmptyString then PNone
  else match py_float_of_string cleaned with
       | Some f => PFloat f
       | None => PNone
       end.

(** [float(v)] under [except (ValueError, TypeError): None] *)
Definition float_or_none (v : PyVal) : result PyVal :=
  match py_float v with
  | Ok f => Ok (PFloat f)
  | Err e => if value_or_type_error e then Ok PNone else Err e
  end.

(** The price coercion of [coerce_flight] (and of [priceTotal] in
    [coerce_hotel]). *)
Definition coerce_amount (price : PyVal) : result PyVal :=
  match price with
  | PStr s => Ok (amount_of_string s)
  | PNone => Ok PNone
  | v => float_or_none v
  end.

(** The rating coercion of [coerce_hotel]. *)
Definition coerce_rating (rating : PyVal) : result PyVal :=
  match rating with
  | PStr s =>
      if str_contains "/" s then float_or_none (PStr (split_first "/" s))
      else float_or_none (PStr s)
  | PNone => Ok PNone
  | v => float_or_none v
  end.

(** ** planner.py: [normalize_to_contract] *)

Definition PEmpty : PyVal := PStr EmptyString.

Definition city_translations : list (string * string) :=
  [("istanbul", "Istanbul"); ("ankara", "Ankara"); ("izmir", "Izmir");
   ("antalya", "Antalya"); ("roma", "Rome"); ("milano", "Milan");
   ("venedik", "Venice"); ("floransa", "Florence"); ("napoli", "Naples");
   ("paris", "Paris"); ("londra", "London"); ("barselona", "Barcelona");
   ("madrid", "Madrid"); ("berlin", "Berlin"); ("viyana", "Vienna");
   ("prag", "Prague"); ("amsterdam", "Amsterdam"); ("cenevre", "Geneva")].

Fixpoint str_assoc (l : list (string * string)) (k : string) : option string :=
  match l with
  | [] => None
  | (k', v) :: r => if String.eqb k k' then Some v else str_assoc r k
  end.

Definition normalize_city_name (city_name : PyVal) : result PyVal :=
  if negb (truthy city_name) then Ok PEmpty
  else match city_name with
       | PStr s =>
           let normalized := py_strip s in
           let lower_name := py_lower normalized in
           Ok (PStr (match str_assoc city_translations lower_name with
                     | Some t => t
                     | None => normalized
                     end))
       | _ => Err (PyExc "AttributeError" "object has no attribute 'strip'")
       end.

Definition ensure_segment_fields (seg : dict) : result PyVal :=
  let g := get seg in
  dur <- py_int (py_or (g "durationMinutes") (py_or (g "duration") (PInt 0))) ;;
  Ok (PDict [("fromIata", py_or (g "fromIata") (py_or (g "from") PEmpty));
             ("toIata", py_or (g "toIata") (py_or (g "to") PEmpty));
             ("departISO", py_or (g "departISO") (py_or (g "depart") PEmpty));
             ("arriveISO", py_or (g "arriveISO") (py_or (g "arrival") PEmpty));
             ("airline", py_or (g "airline") PEmpty);
             ("flightNumber", py_or (g "flightNumber") (py_or (g "number") PEmpty));
             ("durationMinutes", PInt dur);
             ("cabin", py_or (g "cabin") PNone)]).

Definition segment_keys : list string :=
  ["fromIata"; "toIata"; "departISO"; "arriveISO"; "airline"; "flightNumber";
   "durationMinutes"; "cabin"].

Definition coerce_flight (v : PyVal) : result PyVal :=
  match v with
  | PDict val =>
      let segs_in0 := _as_list (get val "segments") in
      let segs_in :=
        match segs_in0 with
        | [] =>
            let seg := flat_map (fun k => match dict_lookup val k with
                                          | Some x => [(k, x)]
                                          | None => [] end) segment_keys in
            match seg with [] => [] | _ => [PDict seg] end
        | _ => segs_in0
        end in
      segs <- mapM (fun s => ensure_segment_fields
                               (match s with PDict d => d | _ => [] end)) segs_in ;;
      let provider := py_or (get val "provider") (py_or (get val "airline") (PStr "unknown")) in
      price <- coerce_amount (get val "price") ;;
      Ok (PDict [("provider", provider); ("currency", get val "currency");
                 ("price", price); ("segments", PList segs);
                 ("bookingUrl", get val "bookingUrl")])
  | _ => Ok PNone
  end.

Definition coerce_hotel (v : PyVal) : result PyVal :=
  match v with
  | PDict val =>
      rating <- coerce_rating (get val "rating") ;;
      price <- coerce_amount (py_or (get val "priceTotal") (get val "price")) ;;
      Ok (PDict [("provider", py_or (get val "provider") (PStr "unknown"));
                 ("name", py_or (get val "name") (py_or (get val "hotel") PEmpty));
                 ("address", get val "address");
                 ("checkInISO", py_or (get val "checkInISO") (py_or (get val "checkIn") PEmpty));
                 ("checkOutISO", py_or (get val "checkOutISO") (py_or (get val "checkOut") PEmpty));
                 ("priceTotal", price);
                 ("currency", get val "currency");
                 ("rating", rating);
                 ("amenities", get val "amenities");
                 ("neighborhood", get val "neighborhood");
                 ("bookingUrl", get val "bookingUrl")])
  | _ => Ok PNone
  end.

(** [x = obj.get(k) or {}; if not isinstance(x, dict): x = {}] *)
Definition dict_or_empty (v : PyVal) : dict :=
  match v with PDict d => d | _ => [] end.

Definition label_map : list (string * string) :=
  [("sabah", "morning"); ("gece", "late-night"); ("check-in", "check-in");
   ("check-out", "check-out"); ("transit", "transit")].

Definition valid_labels : list string :=
  ["morning"; "afternoon"; "evening"; "late-night"; "transit"; "check-in"; "check-out"].

Definition label_of_hour (hour : Z) : string :=
  if Z.ltb hour 6 then "late-night"
  else if Z.ltb hour 12 then "morning"
  else if Z.ltb hour 18 then "afternoon"
  else "evening".

Definition normalize_label (label : PyVal) : PyVal :=
  match label with
  | PStr s =>
      let label_lower := py_strip (py_lower s) in
      match str_assoc label_map label_lower with
      | Some m => PStr m
      | None =>
          if str_contains ":" s && (String.length s <=? 5)%nat then
            match py_int_of_string (split_first ":" s) with
            | Some hour => PStr (label_of_hour hour)
            | None => PStr "morning"
            end
          else if negb (existsb (String.eqb label_lower) valid_labels) then PStr "morning"
          else label
      end
  | _ => label
  end.

Definition manual_data (title notes : PyVal) : PyVal :=
  PDict [("provider", PStr "manual"); ("title", title); ("notes", notes)].

Definition coerce_item (item : PyVal) : PyVal :=
  match item with
  | PStr s => PDict [("type", PStr "activity"); ("data", manual_data item item)]
  | PDict d =>
      if has_key d "type" && has_key d "data" then item
      else PDict [("type", get_default d "type" (PStr "activity"));
                  ("data", get_default d "data"
                             (manual_data
                                (py_or (get d "text") (py_or (get d "title") (PStr (py_str item))))
                                (py_or (get d "description") (get d "notes"))))]
  | _ => PDict [("type", PStr "activity"); ("data", manual_data (PStr (py_str item)) PNone)]
  end.

Definition coerce_block (v : PyVal) : PyVal :=
  match v with
  | PDict b =>
      let label := py_or (get b "label") (py_or (get b "time") (PStr "morning")) in
      PDict [("label", normalize_label label);
             ("items", PList (map coerce_item (_as_list (get b "items"))));
             ("notes", get b "notes")]
  | _ => PDict [("label", PStr "transit"); ("items", PList [])]
  end.

Definition coerce_day (v : PyVal) : PyVal :=
  match v with
  | PDict d =>
      PDict [("dateISO", py_or (get d "dateISO") (py_or (get d "date") PEmpty));
             ("blocks", PList (map coerce_block
                                 (_as_list (py_or (get d "blocks")
                                              (py_or (get d "timeline") (get d "blocksList"))))));
             ("dailyTips", get d "dailyTips")]
  | _ => PDict [("dateISO", PEmpty); ("blocks", PList [])]
  end.

Definition coerce_weather (parsed : dict) (v : PyVal) : list PyVal :=
  match v with
  | PDict w =>
      [PDict [("dateISO", py_or (get w "dateISO") (py_or (get w "date")
                              (py_or (get parsed "startDateISO") PEmpty)));
              ("highC", py_or (get w "highC") (py_or (get w "high") PNone));
              ("lowC", py_or (get w "lowC") (py_or (get w "low") PNone));
              ("precipitationChance", py_or (get w "precipitationChance")
                                         (py_or (get w "precipChance") PNone));
              ("source", py_or (get w "source") (PStr "LLM"));
              ("isForecast", PBool (truthy (get_default w "isForecast" (PBool true))))]]
  | _ => []
  end.

Definition extract_amount (v : PyVal) : PyVal :=
  match v with
  | PDict d => py_or (get d "total") (py_or (get d "amount") (get d "price"))
  | PStr s => amount_of_string s
  | _ => v
  end.

(** [confidence_raw >= t] for an int or float (bool is an int) *)
Definition num_ge (v : PyVal) (t : Z) : bool :=
  match v with
  | PBool b => Z.leb t (if b then 1 else 0)
  | PInt z => Z.leb t z
  | PFloat (FFin d) => Qle_bool (inject_Z t) (dec_to_Q d)
  | PFloat (FInf neg) => negb neg
  | _ => false
  end.

Definition confidence_of (c : PyVal) : string :=
  match c with
  | PBool _ | PInt _ | PFloat _ =>
      if num_ge c 75 then "high" else if num_ge c 50 then "medium" else "low"
  | PStr s =>
      let l := py_lower s in
      if existsb (String.eqb l) ["low"; "medium"; "high"] then l else "low"
  | _ => "low"
  end.

Definition breakdown_of (pricing_src : dict) : PyVal :=
  match get pricing_src "breakdown" with
  | PDict b =>
      PDict [("flights", extract_amount (get b "flights"));
             ("lodging", extract_amount (get b "lodging"));
             ("activities", extract_amount (get b "activities"));
             ("transport", extract_amount (get b "transport"));
             ("feesAndTaxes", extract_amount (get b "feesAndTaxes"))]
  | _ =>
      let p := get pricing_src in
      PDict [("flights", extract_amount (py_or (p "flights") (p "flights_try")));
             ("lodging", extract_amount (py_or (p "lodging") (p "lodging_try")));
             ("activities", extract_amount (py_or (p "activities") (p "activities_try")));
             ("transport", extract_amount (py_or (p "transport") (p "transport_try")));
             ("feesAndTaxes", extract_amount (py_or (p "feesAndTaxes") (p "fees_try")))]
  end.

Definition total_estimated_of (pricing_src : dict) : PyVal :=
  match py_or (get pricing_src "totalEstimated") (get pricing_src "total") with
  | PDict d => get d "amount"
  | PStr s => amount_of_string s
  | v => v
  end.

Definition sources_of (metadata_src : dict) : PyVal :=
  let sources := get metadata_src "sources" in
  if truthy sources then
    match sources with
    | PList ((PStr _ :: _) as l) => PList (map (fun s => PDict [("provider", s)]) l)
    | _ => sources
    end
  else sources.

Definition normalize_to_contract (now_iso : string) (obj : dict) : result PyVal :=
  let query := dict_or_empty (get obj "query") in
  let raw := py_or (get query "raw") (py_or (get obj "prompt") PEmpty) in
  let parsed0 := dict_or_empty (get query "parsed") in
  let origin_raw := py_or (get parsed0 "from") (py_or (get obj "from")
                      (py_or (get parsed0 "originCity") (py_or (get parsed0 "origin") PEmpty))) in
  let dest_raw := py_or (get parsed0 "to") (py_or (get obj "to")
                    (py_or (get parsed0 "destinationCity") (py_or (get parsed0 "destination") PEmpty))) in
  oc <- normalize_city_name origin_raw ;;
  let parsed1 := setdefault parsed0 "originCity" oc in
  dc <- normalize_city_name dest_raw ;;
  let parsed2 := setdefault parsed1 "destinationCity" dc in
  let parsed3 := setdefault parsed2 "startDateISO"
                   (py_or (get parsed2 "startDate") (py_or (get obj "startDate")
                     (py_or (get obj "date") (py_or (get obj "start_date") PEmpty)))) in
  let parsed4 := setdefault parsed3 "endDateISO"
                   (py_or (get parsed3 "endDate") (py_or (get obj "endDate")
                     (py_or (get obj "end_date") PEmpty))) in
  let parsed5 := setdefault parsed4 "nights"
                   (py_or (get parsed4 "nights") (py_or (get obj "nights") (PInt 0))) in
  let parsed := setdefault parsed5 "adults"
                  (py_or (get parsed5 "adults") (py_or (get obj "adults") (PInt 1))) in
  let flights := dict_or_empty (get obj "flights") in
  outbound <- coerce_flight (py_or (get flights "outbound")
                              (py_or (get flights "go") (get flights "flight"))) ;;
  inbound <- coerce_flight (py_or (get flights "inbound") (get flights "return")) ;;
  let flights_norm := PDict [("outbound", outbound); ("inbound", inbound);
                             ("alternatives", as_list_or_none (get flights "alternatives"))] in
  let lodging_src := dict_or_empty (py_or (get obj "lodging") (get obj "hotel")) in
  selected <- coerce_hotel (py_or (get lodging_src "selected") (PDict lodging_src)) ;;
  let lodging_norm := PDict [("selected", selected);
                             ("alternatives", as_list_or_none (get lodging_src "alternatives"))] in
  let transport_src := dict_or_empty (get obj "transport") in
  let transport_norm := PDict [("localPasses", PList (_as_list (get transport_src "localPasses")));
                               ("intercity", PList (_as_list (get transport_src "intercity")))] in
  let weather_norm := flat_map (coerce_weather parsed) (_as_list (get obj "weather")) in
  let days_norm := map coerce_day (_as_list (get obj "days")) in
  let pricing_src := dict_or_empty (get obj "pricing") in
  let pricing_norm :=
    PDict [("currency", py_or (get pricing_src "currency") (py_or (get obj "currency") (PStr "USD")));
           ("breakdown", breakdown_of pricing_src);
           ("totalEstimated", total_estimated_of pricing_src);
           ("confidence", PStr (confidence_of (get pricing_src "confidence")));
           ("notes", as_list_or_none (get pricing_src "notes"))] in
  let metadata_src := dict_or_empty (get obj "metadata") in
  let metadata_norm :=
    PDict [("generatedAtISO", py_or (get metadata_src "generatedAtISO") (PStr now_iso));
           ("sources", py_or (sources_of metadata_src) (PList []));
           ("toolDiagnostics", py_or (get metadata_src "toolDiagnostics") (PList []));
           ("warnings", py_or (get metadata_src "warnings") (PList []));
           ("revisionOf", py_or (get metadata_src "revisionOf") PNone);
           ("planId", py_or (get metadata_src "planId") (PStr now_iso))] in
  let summary := py_or (get obj "summary") (py_or (get obj "overview") PEmpty) in
  Ok (PDict [("query", PDict [("raw", raw); ("parsed", PDict parsed)]);
             ("summary", summary);
             ("flights", flights_norm);
             ("lodging", lodging_norm);
             ("transport", transport_norm);
             ("weather", PList weather_norm);
             ("days", PList days_norm);
             ("pricing", pricing_norm);
             ("metadata", metadata_norm)]).

Definition contract_keys : list string :=
  ["query"; "summary"; "flights"; "lodging"; "transport"; "weather"; "days"; "pricing"; "metadata"].

Definition dict_keys (v : PyVal) : option (list string) :=
  match v with PDict d => Some (map fst d) | _ => None end.

(** [normalize_to_contract(obj)] on any Python value: [obj.get] needs a dict. *)
Definition normalize_value (now_iso : string) (v : PyVal) : result PyVal :=
  match v with
  | PDict d => normalize_to_contract now_iso d
  | _ => Err (PyExc "AttributeError" "object has no attribute 'get'")
  end.

Definition NOW : string := "2025-10-04T12:00:00Z".

(** ** Python's [json.loads] (strict mode; NaN and Infinity accepted) *)

Definition is_json_ws (c : ascii) : bool :=
  let n := nat_of_ascii c in (n =? 32)%nat || (n =? 9)%nat || (n =? 10)%nat || (n =? 13)%nat.

Fixpoint skip_ws (l : list ascii) : list ascii :=
  match l with
  | c :: r => if is_json_ws c then skip_ws r else l
  | [] => []
  end.

Fixpoint take_digits (l : list ascii) : list ascii * list ascii :=
  match l with
  | c :: r => if is_digit c then let '(ds, rest) := take_digits r in (c :: ds, rest) else ([], l)
  | [] => ([], [])
  end.

Fixpoint strip_prefix (p l : list ascii) : option (list ascii) :=
  match p, l with
  | [], _ => Some l
  | c :: p', d :: l' => if Ascii.eqb c d then strip_prefix p' l' else None
  | _, [] => None
  end.

Definition lit (s : string) : list ascii := list_ascii_of_string s.

(** number: optional minus, [0] or a non-zero digit run, optional fraction,
    optional exponent (Python's json NUMBER_RE) *)
Definition parse_number (l : list ascii) : option (PyVal * list ascii) :=
  let '(neg, r0) := match l with
                    | c :: r => if Ascii.eqb c "-" then (true, r) else (false, l)
                    | [] => (false, [])
                    end in
  let ip_rest :=
    match r0 with
    | c :: r => if Ascii.eqb c "0" then Some ([c], r)
                else if is_digit c then let '(ds, rest) := take_digits r in Some (c :: ds, rest)
                else None
    | [] => None
    end in
  match ip_rest with
  | None => None
  | Some (ip, r1) =>
      let '(fp, r2) := match r1 with
                       | c :: r => if Ascii.eqb c "." then
                                     match take_digits r with
                                     | ([], _) => ([], r1)
                                     | (ds, rest) => (ds, rest)
                                     end
                                   else ([], r1)
                       | [] => ([], [])
                       end in
      let '(ex, r3) := match r2 with
                       | c :: r => if Ascii.eqb (lower_char c) "e" then
                                     let '(eneg, r') := take_sign r in
                                     match take_digits r' with
                                     | ([], _) => (None, r2)
                                     | (ds, rest) => (Some (if eneg then - digits_value ds
                                                            else digits_value ds), rest)
                                     end
                                   else (None, r2)
                       | [] => (None, [])
                       end in
      let m := digits_value (ip ++ fp) in
      let m := if neg then - m else m in
      match fp, ex with
      | [], None => Some (PInt m, r3)
      | _, _ => Some (PFloat (FFin (dec_norm m (match ex with Some x => x | None => 0 end
                                                 - Z.of_nat (length fp)))), r3)
      end
  end.

Definition hex_val (c : ascii) : option nat :=
  let n := nat_of_ascii c in
  if (48 <=? n)%nat && (n <=? 57)%nat then Some (n - 48)%nat
  else let n' := nat_of_ascii (lower_char c) in
       if (97 <=? n')%nat && (n' <=? 102)%nat then Some (n' - 87)%nat else None.

(** string body after the opening quote; code points above 255 of a
    [\uXXXX] escape become "?" (text is ASCII in this model). *)
Fixpoint parse_string_body (l : list ascii) : option (list ascii * list ascii) :=
  match l with
  | [] => None
  | c :: r =>
      let n := nat_of_ascii c in
      if (n =? 34)%nat then Some ([], r)
      else if (n <? 32)%nat then None
      else if (n =? 92)%nat then
        match r with
        | e :: r' =>
            let k := nat_of_ascii e in
            let simple x := match parse_string_body r' with
                            | Some (s, rest) => Some (x :: s, rest)
                            | None => None end in
            if (k =? 34)%nat || (k =? 92)%nat || (k =? 47)%nat then simple e
            else if (k =? 98)%nat then simple (ascii_of_nat 8)
            else if (k =? 102)%nat then simple (ascii_of_nat 12)
            else if (k =? 110)%nat then simple (ascii_of_nat 10)
            else if (k =? 114)%nat then simple (ascii_of_nat 13)
            else if (k =? 116)%nat then simple (ascii_of_nat 9)
            else if (k =? 117)%nat then
              match r' with
              | h1 :: h2 :: h3 :: h4 :: r'' =>
                  match hex_val h1, hex_val h2, hex_val h3, hex_val h4 with
                  | Some a, Some b, Some c', Some d =>
                      let cp := (((a * 16 + b) * 16 + c') * 16 + d)%nat in
                      let ch := if (cp <? 256)%nat then ascii_of_nat cp else "?"%char in
                      match parse_string_body r'' with
                      | Some (s, rest) => Some (ch :: s, rest)
                      | None => None
                      end
                  | _, _, _, _ => None
                  end
              | _ => None
              end
            else None
        | [] => None
        end
      else match parse_string_body r with
           | Some (s, rest) => Some (c :: s, rest)
           | None => None
           end
  end.

Definition parse_string (l : list ascii) : option (string * list ascii) :=
  match l with
  | c :: r => if (nat_of_ascii c =? 34)%nat then
                match parse_string_body r with
                | Some (s, rest) => Some (string_of_list_ascii s, rest)
                | None => None
                end
              else None
  | [] => None
  end.

Fixpoint parse_value (fuel : nat) (l : list ascii) : option (PyVal * list ascii) :=
  match fuel with
  | O => None
  | S f =>
      let elems := fix elems (g : nat) (acc : list PyVal) (l : list ascii) :=
        match g with
        | O => None
        | S g' =>
            match parse_value f (skip_ws l) with
            | Some (v, r) =>
                match skip_ws r with
                | c :: r' => if Ascii.eqb c "," then elems g' (v :: acc) r'
                             else if Ascii.eqb c "]" then Some (PList (rev (v :: acc)), r')
                             else None
                | [] => None
                end
            | None => None
            end
        end in
      let members := fix members (g : nat) (acc : dict) (l : list ascii) :=
        match g with
        | O => None
        | S g' =>
            match parse_string (skip_ws l) with
            | Some (k, r) =>
                match skip_ws r with
                | c :: r' =>
                    if Ascii.eqb c ":" then
                      match parse_value f (skip_ws r') with
                      | Some (v, r2) =>
                          match skip_ws r2 with
                          | c2 :: r3 => if Ascii.eqb c2 "," then members g' (dict_set acc k v) r3
                                        else if Ascii.eqb c2 "}" then Some (PDict (dict_set acc k v), r3)
                                        else None
                          | [] => None
                          end
                      | None => None
                      end
                    else None
                | [] => None
                end
            | None => None
            end
        end in
      match l with
      | [] => None
      | c :: r =>
          if Ascii.eqb c "{" then
            match skip_ws r with
            | c' :: r' => if Ascii.eqb c' "}" then Some (PDict [], r') else members (length l) [] r
            | [] => None
            end
          else if Ascii.eqb c "[" then
            match skip_ws r with
            | c' :: r' => if Ascii.eqb c' "]" then Some (PList [], r') else elems (length l) [] r
            | [] => None
            end
          else if (nat_of_ascii c =? 34)%nat then
            match parse_string l with Some (s, rest) => Some (PStr s, rest) | None => None end
          else
            match strip_prefix (lit "null") l with Some r' => Some (PNone, r') | None =>
            match strip_prefix (lit "true") l with Some r' => Some (PBool true, r') | None =>
            match strip_prefix (lit "false") l with Some r' => Some (PBool false, r') | None =>
            match strip_prefix (lit "NaN") l with Some r' => Some (PFloat FNaN, r') | None =>
            match strip_prefix (lit "Infinity") l with Some r' => Some (PFloat (FInf false), r') | None =>
            match strip_prefix (lit "-Infinity") l with Some r' => Some (PFloat (FInf true), r') | None =>
              parse_number l
            end end end end end end
      end
  end.

(** [json.loads(s)]; [None] is a JSONDecodeError. *)
Definition json_loads (s : string) : option PyVal :=
  let l := list_ascii_of_string s in
  match parse_value (S (length l)) (skip_ws l) with
  | Some (v, rest) => match skip_ws rest with [] => Some v | _ => None end
  | None => None
  end.

(** ** planner.py: [_normalize_block_item_types] and [_json_only_guard] *)

(** [for x in v] *)
Definition py_iter (v : PyVal) : result (list PyVal) :=
  match v with
  | PList l => Ok l
  | PDict d => Ok (map (fun kv => PStr (fst kv)) d)
  | PStr s => Ok (map (fun c => PStr (String c EmptyString)) (list_ascii_of_string s))
  | _ => Err (PyExc "TypeError" "object is not iterable")
  end.

(** [k in v] for a string [k] *)
Definition py_in (k : string) (v : PyVal) : result bool :=
  match v with
  | PDict d => Ok (has_key d k)
  | PList l => Ok (existsb (fun x => match x with PStr s => String.eqb s k | _ => false end) l)
  | PStr s => Ok (str_contains k s)
  | _ => Err (PyExc "TypeError" "argument is not iterable")
  end.

(** [v[k]] for a string [k] *)
Definition py_index (v : PyVal) (k : string) : result PyVal :=
  match v with
  | PDict d => match dict_lookup d k with
               | Some x => Ok x
               | None => Err (PyExc "KeyError" k)
               end
  | PList _ => Err (PyExc "TypeError" "list indices must be integers or slices, not str")
  | PStr _ => Err (PyExc "TypeError" "string indices must be integers, not 'str'")
  | _ => Err (PyExc "TypeError" "object is not subscriptable")
  end.

(** [x.get(...)] on a value that must be a dict *)
Definition as_dict (v : PyVal) : result dict :=
  match v with
  | PDict d => Ok d
  | _ => Err (PyExc "AttributeError" "object has no attribute 'get'")
  end.

(** [for x in v: f(x)] where [f] mutates [x] in place *)
Definition map_iter (f : PyVal -> result PyVal) (v : PyVal) : result PyVal :=
  match v with
  | PList l => l' <- mapM f l ;; Ok (PList l')
  | _ => it <- py_iter v ;; _ <- mapM f it ;; Ok v
  end.

(** [for x in d.get(k, []): f(x)] with the mutations written back *)
Definition update_key (f : PyVal -> result PyVal) (d : dict) (k : string) : result dict :=
  v' <- map_iter f (get_default d k (PList [])) ;;
  Ok (if has_key d k then dict_set d k v' else d).

Definition type_mapping : list (string * string) :=
  [("transport", "transfer"); ("accommodation", "lodging"); ("hotel", "lodging");
   ("arrival", "flight"); ("departure", "flight")].

Definition fix_item (item : PyVal) : result PyVal :=
  has_type <- py_in "type" item ;;
  if has_type then
    original <- py_index item "type" ;;
    match original with
    | PList _ | PDict _ => Err (PyExc "TypeError" "unhashable type")
    | PStr s =>
        match str_assoc type_mapping s with
        | Some t =>
            if String.eqb s t then Ok item
            else match item with
                 | PDict d => Ok (PDict (dict_set d "type" (PStr t)))
                 | _ => Err (PyExc "TypeError" "object does not support item assignment")
                 end
        | None => Ok item
        end
    | _ => Ok item
    end
  else Ok item.

Definition fix_block (block : PyVal) : result PyVal :=
  b <- as_dict block ;; b' <- update_key fix_item b "items" ;; Ok (PDict b').

Definition fix_day (day : PyVal) : result PyVal :=
  d <- as_dict day ;; d' <- update_key fix_block d "blocks" ;; Ok (PDict d').

Definition _normalize_block_item_types (data : PyVal) : result PyVal :=
  d <- as_dict data ;; d' <- update_key fix_day d "days" ;; Ok (PDict d').

Fixpoint find_char (c : ascii) (l : list ascii) (i : Z) : Z :=
  match l with
  | [] => -1
  | x :: r => if Ascii.eqb x c then i else find_char c r (i + 1)
  end.

(** [text.find(c)] and [text.rfind(c)] *)
Definition str_find (c : ascii) (s : string) : Z := find_char c (list_ascii_of_string s) 0.

Definition str_rfind (c : ascii) (s : string) : Z :=
  let l := list_ascii_of_string s in
  let j := find_char c (rev l) 0 in
  if Z.eqb j (-1) then -1 else Z.of_nat (length l) - 1 - j.

(** [text[s : e + 1]] when both braces are found *)
Definition brace_span (text : string) : option string :=
  let s := str_find "{" text in
  let e := str_rfind "}" text in
  if negb (Z.eqb s (-1)) && negb (Z.eqb e (-1)) then
    Some (substring (Z.to_nat s) (Z.to_nat (e + 1 - s)) text)
  else None.

Definition json_decode_error : exn := PyExc "JSONDecodeError" "Expecting value".

Definition _json_only_guard (text : string) : result PyVal :=
  if String.eqb (py_strip text) EmptyString then Err (PyExc "ValueError" "Empty text received")
  else match json_loads text with
       | Some data => _normalize_block_item_types data
       | None =>
           match brace_span text with
           | Some extracted =>
               match json_loads extracted with
               | Some data => _normalize_block_item_types data
               | None => Err json_decode_error
               end
           | None => Err (PyExc "ValueError" "No valid JSON found in response")
           end
       end.

(** ** planner.py: the turn loop of [generate] *)

(** The reply of the model at one turn: [response.get("stop_reason")] and
    [response.get("content", [])]. *)
Record response := mkResponse { stop_reason : PyVal; content : list PyVal }.

(** How a run of [generate] ends: a plan built from the model's final
    text, an exception propagated to the caller, or the deterministic
    fallback plan built after the loop. *)
Inductive run_outcome :=
| RPlan (plan : PyVal)
| RRaised (e : exn)
| RFallback.

(** [_json_only_guard(raw)] for [raw = block.get("text", "")], any value *)
Definition guard_value (raw : PyVal) : result PyVal :=
  match raw with
  | PStr s => _json_only_guard s
  | _ => if truthy raw then Err (PyExc "AttributeError" "object has no attribute 'strip'")
         else Err (PyExc "ValueError" "Empty text received")
  end.

(** [for block in content_blocks: if block.get("type") == "text": ...]:
    the text of the first text block, if any. *)
Fixpoint first_text (blocks : list PyVal) : result (option PyVal) :=
  match blocks with
  | [] => Ok None
  | b :: r =>
      d <- as_dict b ;;
      match get d "type" with
      | PStr t => if String.eqb t "text" then Ok (Some (get_default d "text" PEmpty)) else first_text r
      | _ => first_text r
      end
  end.

Definition max_turns : nat := 10.

Section Generate.
  (** [chat_with_tools] at each turn (the transcript it sees is fixed by
      the earlier turns), and what follows a successful normalization:
      MCP enrichment, [TripPlan.model_validate] and caching. *)
Variable call_model : nat -> result response.
Variable finish : PyVal -> result PyVal.
Variable now_iso : string.

Definition final_answer (raw : PyVal) : run_outcome :=
    match (obj <- guard_value raw ;; obj' <- normalize_value now_iso obj ;; finish obj') with
    | Ok plan => RPlan plan
    | Err e => RRaised e
    end.

Fixpoint gen_loop (fuel : nat) (turn : nat) : run_outcome :=
    match fuel with
    | O => RFallback
    | S f =>
        match call_model turn with
        | Err e => RRaised e
        | Ok r =>
            match stop_reason r with
            | PStr "end_turn" =>
                match first_text (content r) with
                | Err e => RRaised e
                | Ok (Some raw) => final_answer raw
                | Ok None => RFallback
                end
            | PStr "tool_use" => gen_loop f (S turn)
            | _ => RFallback
            end
        end
    end.

Definition generate : run_outcome := gen_loop max_turns 0.
End Generate.

(** ** mcp_client.py: [MCPClient.call_tool] *)

(** The HTTP exchange of one [tools/call]: the POST raises (transport
    error), or answers with a status code and a body whose SSE [data:]
    line [_parse_sse_response] turned into [data] ([{}] when absent or
    not JSON). *)
Inductive post_outcome :=
| PostRaises (e : exn)
| PostAnswer (status : Z) (data : PyVal).

Definition exn_str (e : exn) : PyVal := match e with PyExc _ m => PStr m end.

(** [response.raise_for_status()]: httpx raises on every non-2xx status. *)
Definition raise_for_status (status : Z) : result unit :=
  if Z.leb 200 status && Z.ltb status 300 then Ok tt
  else Err (PyExc "HTTPStatusError" "non-success status").

Definition call_tool_body (post : post_outcome) : result (option PyVal) :=
  match post with
  | PostRaises e => Err e
  | PostAnswer status data =>
      _ <- raise_for_status status ;;
      has_result <- py_in "result" data ;;
      if has_result then r <- py_index data "result" ;; Ok (Some r)
      else
        has_error <- py_in "error" data ;;
        if has_error then e <- py_index data "error" ;; Ok (Some (PDict [("error", e)]))
        else Ok None
  end.

(** [session_initialized] is the client's flag; [initialize_ok] what
    [initialize()] returns when it is called (it catches every exception). *)
Definition call_tool (session_initialized initialize_ok : bool) (post : post_outcome) : PyVal :=
  if negb session_initialized && negb initialize_ok then
    PDict [("error", PStr "MCP session not initialized")]
  else
    match call_tool_body post with
    | Ok (Some v) => v
    | Ok None => PDict [("error", PStr "Unknown error")]
    | Err e => PDict [("error", exn_str e)]
    end.

(** ** anthropic_client.py: [chat_with_tools] *)

(** One POST to the Messages API: a 2xx JSON body, a non-2xx status
    ([HTTPStatusError]) with its [retry-after] header, or any other
    exception (timeout, connection error, undecodable JSON). *)
Inductive http_reply :=
| HOk (body : PyVal)
| HStatus (code : Z) (retry_after : option string)
| HOther (e : exn).

Inductive chat_event :=
| Posted (attempt : nat)
| Slept (delay : PyFloat).

Inductive chat_outcome :=
| Returned (body : PyVal)
| RaisedStatus (code : Z)
| RaisedOther (e : exn)
| RaisedRateLimit
| RaisedGeneric.

(** [base_delay * (2 ** attempt)], replaced by [float(retry_after)] when
    the header is non-empty and parses. *)
Definition retry_delay (base_delay : Dec) (attempt : nat) (retry_after : option string) : PyFloat :=
  let backoff := FFin (dec_norm (dm base_delay * 2 ^ Z.of_nat attempt) (de base_delay)) in
  match retry_after with
  | Some h => if String.eqb h EmptyString then backoff
              else match py_float_of_string h with Some d => d | None => backoff end
  | None => backoff
  end.

Section Chat.
Variable base_delay : Dec.
Variable max_retries : nat.
  (** the reply to the POST of each attempt *)
Variable reply : nat -> http_reply.

  (** [for attempt in range(max_retries)], from [attempt] on, with
      [remaining = max_retries - attempt] iterations left. *)
Fixpoint chat_loop (remaining attempt : nat) (last_error : bool) : list chat_event * chat_outcome :=
    match remaining with
    | O => ([], if last_error then RaisedStatus 429 else RaisedGeneric)
    | S r =>
        match reply attempt with
        | HOk body => ([Posted attempt], Returned body)
        | HStatus code ra =>
            if Z.eqb code 429 then
              if (attempt <? max_retries - 1)%nat then
                let '(evs, out) := chat_loop r (S attempt) true in
                (Posted attempt :: Slept (retry_delay base_delay attempt ra) :: evs, out)
              else ([Posted attempt], RaisedRateLimit)
            else ([Posted attempt], RaisedStatus code)
        | HOther e => ([Posted attempt], RaisedOther e)
        end
    end.

Definition chat_with_tools : list chat_event * chat_outcome := chat_loop max_retries 0 false.

  (** the events of attempts [a .. a+n-1], all answered by 429: a POST
      then a sleep of the backoff delay of that attempt *)
Fixpoint backoff_trace_from (a n : nat) : list chat_event :=
    match n with
    | O => []
    | S n' => Posted a :: Slept (retry_delay base_delay a
                                   (match reply a with HStatus _ ra => ra | _ => None end))
              :: backoff_trace_from (S a) n'
    end.

Definition backoff_trace (k : nat) : list chat_event := backoff_trace_from 0 k.

  (** what attempt [k] ends the call with, when it is the last one made *)
Definition outcome_at (k : nat) : chat_outcome :=
    match reply k with
    | HOk body => Returned body
    | HStatus code _ => if Z.eqb code 429 then RaisedRateLimit else RaisedStatus code
    | HOther e => RaisedOther e
    end.
End Chat.

Definition is_429 (h : http_reply) : bool :=
  match h with HStatus c _ => Z.eqb c 429 | _ => false end.

(** ** mcp_pool.py: [MCPSessionPool] *)

(** [asyncio.Queue(maxsize=max_size).put_nowait]: full when [maxsize > 0]
    and [qsize() >= maxsize] (a non-positive maxsize is unbounded). *)
Definition queue_full (max_size idle : nat) : bool :=
  (0 <? max_size)%nat && (max_size <=? idle)%nat.

Module Pool.

  (** Where one acquirer is inside [get_session]. *)
Inductive phase :=
  | Outside      (** not in [get_session] *)
  | WaitLock     (** [get_nowait] found the queue empty; waiting for [_lock] *)
  | Creating     (** holds [_lock], saw [total_created < max_size], awaits [initialize()] *)
  | WaitQueue    (** holds [_lock], pool exhausted, awaits [sessions.get()] *)
  | Holding.     (** inside the [async with] body, holding a session *)

Record state := mkState {
    idle : nat;                 (** [sessions.qsize()] *)
    total_created : nat;
    lock : option nat;          (** the task holding [_lock] *)
    th : nat -> phase           (** every task that may call [get_session] *)
  }.

Definition upd (f : nat -> phase) (i : nat) (p : phase) : nat -> phase :=
    fun j => if Nat.eqb j i then p else f j.

Section Steps.
Variable max_size : nat.

    (** One scheduling step of task [i]: asyncio runs a task without
        interruption between two awaits. *)
Inductive step : state -> state -> Prop :=
    | step_hit : forall s i,
        th s i = Outside -> (0 < idle s)%nat ->
        step s (mkState (idle s - 1) (total_created s) (lock s) (upd (th s) i Holding))
    | step_miss : forall s i,
        th s i = Outside -> idle s = 0%nat ->
        step s (mkState (idle s) (total_created s) (lock s) (upd (th s) i WaitLock))
    | step_lock_create : forall s i,
        th s i = WaitLock -> lock s = None -> (total_created s < max_size)%nat ->
        step s (mkState (idle s) (total_created s) (Some i) (upd (th s) i Creating))
    | step_lock_exhausted : forall s i,
        th s i = WaitLock -> lock s = None -> (max_size <= total_created s)%nat ->
        step s (mkState (idle s) (total_created s) (Some i) (upd (th s) i WaitQueue))
    | step_created : forall s i,
        th s i = Creating ->
        step s (mkState (idle s) (S (total_created s)) None (upd (th s) i Holding))
    | step_create_failed : forall s i,
        th s i = Creating ->
        step s (mkState (idle s) (total_created s) None (upd (th s) i Outside))
    | step_queue_get : forall s i,
        th s i = WaitQueue -> (0 < idle s)%nat ->
        step s (mkState (idle s - 1) (total_created s) None (upd (th s) i Holding))
    | step_release : forall s i,
        th s i = Holding ->
        step s (mkState (if queue_full max_size (idle s) then idle s else S (idle s))
                        (total_created s) (lock s) (upd (th s) i Outside)).

Inductive reachable (s0 : state) : state -> Prop :=
    | reach_init : reachable s0 s0
    | reach_step : forall s s', reachable s0 s -> step s s' -> reachable s0 s'.
End Steps.

  (** A pool after construction and startup warm-up, before any request:
      no task inside [get_session], lock free. *)
Definition initial (max_size : nat) (s : state) : Prop :=
    (total_created s <= max_size)%nat /\ lock s = None /\ forall i, th s i = Outside.

  (** Counters of [self.stats] together with the queue. *)
Record counters := mkCounters {
    c_idle : nat;
    c_total_created : nat;
    c_total_requests : nat;
    c_cache_hits : nat;
    c_cache_misses : nat;
    c_active_sessions : Z
  }.

  (** The numeric fields of [get_stats()]; [pool_size] is [qsize()]. *)
Record stats := mkStats {
    st_total_requests : nat; st_cache_hits : nat; st_cache_misses : nat;
    st_active_sessions : Z; st_pool_size : nat; st_max_size : nat; st_total_created : nat
  }.

Definition get_stats (max_size : nat) (c : counters) : stats :=
    mkStats (c_total_requests c) (c_cache_hits c) (c_cache_misses c) (c_active_sessions c)
            (c_idle c) max_size (c_total_created c).

Inductive acquire_outcome :=
  | Acquired (c : counters)
  | AcquireRaised (c : counters)   (** [initialize()] failed: the exception leaves [get_session] *)
  | Blocked.                       (** waits on [sessions.get()] for another task's release *)

  (** [get_session] entry, run by a single task with nobody else in the
      pool; [init_ok] is what [client.initialize()] returns. *)
Definition acquire (max_size : nat) (init_ok : bool) (c : counters) : acquire_outcome :=
    let c1 := mkCounters (c_idle c) (c_total_created c) (S (c_total_requests c))
                         (c_cache_hits c) (c_cache_misses c) (c_active_sessions c) in
    if (0 <? c_idle c)%nat then
      Acquired (mkCounters (c_idle c - 1) (c_total_created c) (c_total_requests c1)
                           (S (c_cache_hits c)) (c_cache_misses c) (c_active_sessions c + 1))
    else
      let c2 := mkCounters (c_idle c) (c_total_created c) (c_total_requests c1)
                           (c_cache_hits c) (S (c_cache_misses c)) (c_active_sessions c) in
      if (c_total_created c <? max_size)%nat then
        if init_ok then
          Acquired (mkCounters (c_idle c) (S (c_total_created c)) (c_total_requests c2)
                               (c_cache_hits c2) (c_cache_misses c2) (c_active_sessions c + 1))
        else AcquireRaised c2
      else Blocked.

  (** the [finally] clause: [put_nowait] or discard *)
Definition release (max_size : nat) (c : counters) : counters :=
    mkCounters (if queue_full max_size (c_idle c) then c_idle c else S (c_idle c))
               (c_total_created c) (c_total_requests c) (c_cache_hits c) (c_cache_misses c)
               (c_active_sessions c - 1).

Definition acquire_release (max_size : nat) (init_ok : bool) (c : counters) : acquire_outcome :=
    match acquire max_size init_ok c with
    | Acquired c' => Acquired (release max_size c')
    | o => o
    end.
End Pool.

(** ** prompt_parser.py: durations and end dates *)

(** [re.findall(r"\d+", s)] converted with [int] *)
Fixpoint digit_runs_fuel (fuel : nat) (l : list ascii) : list Z :=
  match fuel with
  | O => []
  | S f =>
      match l with
      | [] => []
      | c :: r =>
          if is_digit c then let '(ds, rest) := take_digits l in digits_value ds :: digit_runs_fuel f rest
          else digit_runs_fuel f r
      end
  end.

Definition digit_runs (s : string) : list Z :=
  let l := list_ascii_of_string s in digit_runs_fuel (length l) l.

Definition _parse_duration_to_int (value : PyVal) : result (option Z) :=
  match value with
  | PNone => Ok None
  | PBool b => Ok (Some (if b then 1 else 0))
  | PInt z => Ok (Some z)
  | PFloat f => z <- py_int (PFloat f) ;; Ok (Some z)
  | PStr s => match digit_runs s with
              | [] => Ok None
              | n :: ns => Ok (Some (fold_left Z.max ns n))
              end
  | _ => Ok None
  end.

(** Proleptic Gregorian calendar, days counted from 1970-01-01. *)
Definition is_leap (y : Z) : bool :=
  Z.eqb (y mod 4) 0 && (negb (Z.eqb (y mod 100) 0) || Z.eqb (y mod 400) 0).

Definition days_in_month (y m : Z) : Z :=
  if Z.eqb m 2 then (if is_leap y then 29 else 28)
  else if existsb (Z.eqb m) [4; 6; 9; 11] then 30 else 31.

Definition days_from_civil (y m d : Z) : Z :=
  let y' := if Z.leb m 2 then y - 1 else y in
  let era := y' / 400 in
  let yoe := y' - era * 400 in
  let doy := (153 * (if Z.ltb 2 m then m - 3 else m + 9) + 2) / 5 + d - 1 in
  let doe := yoe * 365 + yoe / 4 - yoe / 100 + doy in
  era * 146097 + doe - 719468.

Definition civil_from_days (z : Z) : Z * Z * Z :=
  let z := z + 719468 in
  let era := z / 146097 in
  let doe := z - era * 146097 in
  let yoe := (doe - doe / 1460 + doe / 36524 - doe / 146096) / 365 in
  let doy := doe - (365 * yoe + yoe / 4 - yoe / 100) in
  let mp := (5 * doy + 2) / 153 in
  let d := doy - (153 * mp + 2) / 5 + 1 in
  let m := if Z.ltb mp 10 then mp + 3 else mp - 9 in
  (if Z.leb m 2 then yoe + era * 400 + 1 else yoe + era * 400, m, d).

Definition two_digits (l : list ascii) : option (Z * list ascii) :=
  match l with
  | a :: b :: r => if is_digit a && is_digit b then Some (digit_val a * 10 + digit_val b, r) else None
  | _ => None
  end.

(** The alternatives of [_strptime]'s [%m] regex, in order:
    [1[0-2] | 0[1-9] | [1-9]]. *)
Definition month_alternatives (l : list ascii) : list (Z * list ascii) :=
  let alt1 := match l with
              | a :: b :: r => if Ascii.eqb a "1" && is_digit b && Z.leb (digit_val b) 2
                               then [(10 + digit_val b, r)] else []
              | _ => [] end in
  let alt2 := match l with
              | a :: b :: r => if Ascii.eqb a "0" && is_digit b && negb (Ascii.eqb b "0")
                               then [(digit_val b, r)] else []
              | _ => [] end in
  let alt3 := match l with
              | a :: r => if is_digit a && negb (Ascii.eqb a "0") then [(digit_val a, r)] else []
              | _ => [] end in
  alt1 ++ alt2 ++ alt3.

(** [%d]: [3[01] | [12]\d | 0[1-9] | [1-9] | " "[1-9]] *)
Definition day_alternatives (l : list ascii) : list (Z * list ascii) :=
  let alt1 := match l with
              | a :: b :: r => if Ascii.eqb a "3" && (Ascii.eqb b "0" || Ascii.eqb b "1")
                               then [(30 + digit_val b, r)] else []
              | _ => [] end in
  let alt2 := match l with
              | a :: b :: r => if (Ascii.eqb a "1" || Ascii.eqb a "2") && is_digit b
                               then [(digit_val a * 10 + digit_val b, r)] else []
              | _ => [] end in
  let alt3 := match l with
              | a :: b :: r => if Ascii.eqb a "0" && is_digit b && negb (Ascii.eqb b "0")
                               then [(digit_val b, r)] else []
              | _ => [] end in
  let alt4 := match l with
              | a :: r => if is_digit a && negb (Ascii.eqb a "0") then [(digit_val a, r)] else []
              | _ => [] end in
  let alt5 := match l with
              | a :: b :: r => if Ascii.eqb a " " && is_digit b && negb (Ascii.eqb b "0")
                               then [(digit_val b, r)] else []
              | _ => [] end in
  alt1 ++ alt2 ++ alt3 ++ alt4 ++ alt5.

Fixpoint first_some {A B} (f : A -> option B) (l : list A) : option B :=
  match l with
  | [] => None
  | x :: r => match f x with Some y => Some y | None => first_some f r end
  end.

(** [datetime.strptime(s, "%Y-%m-%d")]: the first regex match (4-digit
    year), then "unconverted data remains" and the calendar check. *)
Definition strptime_ymd (s : string) : option (Z * Z * Z) :=
  let l := list_ascii_of_string s in
  match l with
  | y1 :: y2 :: y3 :: y4 :: r =>
      if is_digit y1 && is_digit y2 && is_digit y3 && is_digit y4 then
        let y := digits_value [y1; y2; y3; y4] in
        let matched :=
          match r with
          | c :: r1 =>
              if Ascii.eqb c "-" then
                first_some (fun '(m, r2) =>
                  match r2 with
                  | c' :: r3 => if Ascii.eqb c' "-" then
                                  match day_alternatives r3 with
                                  | (d, rest) :: _ => Some (m, d, rest)
                                  | [] => None
                                  end
                                else None
                  | [] => None
                  end) (month_alternatives r1)
              else None
          | [] => None
          end in
        match matched with
        | Some (m, d, []) =>
            if Z.leb 1 y && Z.leb d (days_in_month y m) then Some (y, m, d) else None
        | _ => None
        end
      else None
  | _ => None
  end.

Definition pad (n : nat) (z : Z) : string :=
  let ds := nat_digits z in zeros (n - String.length ds) ++ ds.

(** [end_dt.strftime("%Y-%m-%d")] *)
Definition strftime_ymd (y m d : Z) : string :=
  pad 4 y ++ "-" ++ pad 2 m ++ "-" ++ pad 2 d.

Definition timedelta_max_days : Z := 999999999.

(** [_compute_end_date_if_missing(d)]: any exception in the [try] is
    swallowed and leaves [d] unchanged. *)
Definition _compute_end_date_if_missing (d : dict) : dict :=
  let start := get d "start_date" in
  let duration := get d "duration" in
  if truthy start && truthy duration && negb (truthy (get d "end_date")) then
    match start with
    | PStr s =>
        match strptime_ymd s with
        | Some (y, m, dd) =>
            match py_int duration with
            | Ok n =>
                let days := if Z.ltb 0 n then n - 1 else 0 in
                let '(y', m', d') := civil_from_days (days_from_civil y m dd + days) in
                if Z.ltb timedelta_max_days days || Z.ltb 9999 y' then d
                else dict_set d "end_date" (PStr (strftime_ymd y' m' d'))
            | Err _ => d
            end
        | None => d
        end
    | _ => d
    end
  else d.

(** The [dates] section of [_normalize_to_schema] for a non-empty dict. *)
Definition normalize_dates (dates : dict) : result dict :=
  let dur := get dates "duration" in
  d1 <- match dur with
        | PNone | PInt _ | PBool _ => Ok dates
        | _ => p <- _parse_duration_to_int dur ;;
               Ok (match p with Some n => dict_set dates "duration" (PInt n) | None => dates end)
        end ;;
  Ok (_compute_end_date_if_missing d1).

(** ** adapters.py: the tool catalogue cache *)

(** [convert_mcp_tool_to_anthropic] *)
Definition convert_mcp_tool_to_anthropic (tool : PyVal) : result PyVal :=
  t <- as_dict tool ;;
  Ok (PDict [("name", get_default t "name" (PStr "unknown_tool"));
             ("description", get_default t "description" (PStr "No description available"));
             ("input_schema", get_default t "inputSchema"
                                (PDict [("type", PStr "object"); ("properties", PDict [])]))]).

(** The module global [_cached_mcp_tools] and the number of times the
    server was asked for its tool list. *)
Record tools_state := mkTools { cached : option (list PyVal); server_fetches : nat }.

(** [get_mcp_tools_schema()]; [fetched] is what
    [fetch_mcp_tools_from_server()] would return (it never raises). *)
Definition get_mcp_tools_schema (fetched : PyVal) (s : tools_state)
  : result (list PyVal) * tools_state :=
  match cached s with
  | Some tools => (Ok tools, s)
  | None =>
      let s1 := mkTools None (S (server_fetches s)) in
      if negb (truthy fetched) then (Ok [], mkTools (Some []) (server_fetches s1))
      else match (it <- py_iter fetched ;; mapM convert_mcp_tool_to_anthropic it) with
           | Ok tools => (Ok tools, mkTools (Some tools) (server_fetches s1))
           | Err e => (Err e, s1)
           end
  end.

(** A sequence of calls, each with the answer the server would give. *)
Fixpoint run_tool_calls (answers : list PyVal) (s : tools_state)
  : list (result (list PyVal)) * tools_state :=
  match answers with
  | [] => ([], s)
  | a :: rest =>
      let '(r, s1) := get_mcp_tools_schema a s in
      let '(rs, s2) := run_tool_calls rest s1 in
      (r :: rs, s2)
  end.

(** [POST /tools/refresh] resets the global. *)
Definition refresh_reset (s : tools_state) : tools_state := mkTools None (server_fetches s).

(** ** Concrete inputs used below *)

Definition nested_amount_input : dict :=
  [("pricing", PDict [("totalEstimated", PDict [("amount", PStr "50 TL")])])].

Definition late_origin_input : dict :=
  [("from", PStr "Ankara"); ("query", PDict [("parsed", PDict [("originCity", PInt 5)])])].

Definition bad_duration_input : dict :=
  [("flights", PDict [("outbound", PDict [("durationMinutes", PStr "2h")])])].

Definition int_origin_input : dict :=
  [("query", PDict [("parsed", PDict [("from", PInt 5)])])].

Definition huge_price_input : dict :=
  [("flights", PDict [("outbound", PDict [("price", PInt (10 ^ 400))])])].

(** ** mcp_client.py: [_parse_sse_response] and [list_tools] *)

(** [s.split(sep)] for a one-character separator *)
Fixpoint split_on (sep : ascii) (l : list ascii) : list (list ascii) :=
  match l with
  | [] => [[]]
  | c :: r => if Ascii.eqb c sep then [] :: split_on sep r
              else match split_on sep r with
                   | line :: rest => (c :: line) :: rest
                   | [] => [[c]]
                   end
  end.

Definition newline : ascii := "010".

Definition _parse_sse_response (text : string) : PyVal :=
  let lines := split_on newline (list_ascii_of_string (py_strip text)) in
  match first_some (strip_prefix (lit "data:")) lines with
  | Some rest =>
      let data_line := py_strip (string_of_list_ascii rest) in
      if String.eqb data_line EmptyString then PDict []
      else match json_loads data_line with Some v => v | None => PDict [] end
  | None => PDict []
  end.

Definition rstrip (l : list ascii) : list ascii := rev (drop_spaces (rev l)).

(** The HTTP reply of a POST as [response.text]: an exception from
    [client.post], or a status with its body. *)
Inductive http_text :=
| TextRaises (e : exn)
| TextAnswer (status : Z) (text : string).


Definition py_len (v : PyVal) : result Z :=
  match v with
  | PList l => Ok (Z.of_nat (length l))
  | PDict d => Ok (Z.of_nat (length d))
  | PStr s => Ok (Z.of_nat (String.length s))
  | _ => Err (PyExc "TypeError" "object has no len()")
  end.

Definition list_tools_body (post : http_text) : result PyVal :=
  match post with
  | TextRaises e => Err e
  | TextAnswer status text =>
      _ <- raise_for_status status ;;
      let data := _parse_sse_response text in
      has_result <- py_in "result" data ;;
      if has_result then
        result <- py_index data "result" ;;
        r <- as_dict result ;;
        let tools := get_default r "tools" (PList []) in
        _ <- py_len tools ;;
        it <- py_iter tools ;;
        _ <- mapM (fun t => d <- as_dict t ;; Ok (get d "name")) it ;;
        Ok tools
      else
        _ <- py_in "error" data ;;
        Ok (PList [])
  end.

Definition list_tools (session_initialized initialize_ok : bool) (post : http_text) : PyVal :=
  if negb session_initialized && negb initialize_ok then PList []
  else match list_tools_body post with
       | Ok tools => tools
       | Err _ => PList []
       end.

(** ** planner.py: shape of a normalised plan and of guarded item types *)





Definition type_clean (item : PyVal) : bool :=
  match item with
  | PDict d => match get d "type" with
               | PStr s => match str_assoc type_mapping s with Some _ => false | None => true end
               | _ => true
               end
  | _ => true
  end.

Definition all_in (p : PyVal -> bool) (v : PyVal) : bool :=
  match v with PList l => forallb p l | _ => true end.

Definition block_clean (v : PyVal) : bool :=
  match v with PDict b => all_in type_clean (get b "items") | _ => true end.

Definition day_clean (v : PyVal) : bool :=
  match v with PDict d => all_in block_clean (get d "blocks") | _ => true end.

Definition plan_clean (v : PyVal) : bool :=
  match v with PDict d => all_in day_clean (get d "days") | _ => true end.

(** ** mcp_pool.py: warm-up, shutdown and the global pool *)

Module PoolLife.
Import Pool.

(** [MCPSessionPool]: the [initialized] flag and the counters *)
Record pool := mkPool { initialized : bool; ctr : counters }.

(** [MCPSessionPool(pool_size=5, max_size=10)] as built by [get_mcp_pool] *)
Definition new_pool : pool := mkPool false (mkCounters 0 0 0 0 0 0).

Definition global_pool_size : nat := 5.
Definition global_max_size : nat := 10.

(** The results of [asyncio.gather(..., return_exceptions=True)] over the
    [_create_session] calls: [true] for an initialised [MCPClient],
    [false] for an exception. *)
Fixpoint count_ok (rs : list bool) : nat :=
  match rs with
  | [] => O
  | true :: r => S (count_ok r)
  | false :: r => count_ok r
  end.

(** [await self.sessions.put(session)] for each created session; [None]
    when a put finds the bounded queue full and waits (no task takes a
    session during warm-up). *)
Fixpoint put_all (max_size : nat) (rs : list bool) (idle : nat) : option nat :=
  match rs with
  | [] => Some idle
  | true :: r => if queue_full max_size idle then None else put_all max_size r (S idle)
  | false :: r => put_all max_size r idle
  end.

(** [warmup()]: [total_created] is overwritten with [created]. *)
Definition warmup (max_size : nat) (rs : list bool) (p : pool) : option pool :=
  if initialized p then Some p
  else match put_all max_size rs (c_idle (ctr p)) with
       | None => None
       | Some idle' =>
           let c := ctr p in
           Some (mkPool true (mkCounters idle' (count_ok rs) (c_total_requests c)
                                         (c_cache_hits c) (c_cache_misses c) (c_active_sessions c)))
       end.

(** [shutdown()]: drains the queue; [total_created] is kept. *)
Definition shutdown (p : pool) : pool :=
  let c := ctr p in
  mkPool false (mkCounters 0 (c_total_created c) (c_total_requests c)
                           (c_cache_hits c) (c_cache_misses c) (c_active_sessions c)).

(** [initialize_mcp_pool()] on a given pool *)
Definition initialize_mcp_pool (rs : list bool) (p : pool) : option pool :=
  if initialized p then Some p else warmup global_max_size rs p.

(** The scheduling state of a pool with nobody inside [get_session] *)
Definition quiescent (p : pool) : state :=
  mkState (c_idle (ctr p)) (c_total_created (ctr p)) None (fun _ => Outside).

End PoolLife.

(** ** planner.py: [_map_mcp_bus] *)

(** the dict appended to [out] for one [bus] *)
Definition bus_entry (bus : dict) : PyVal :=
  PDict [("mode", PStr "bus");
         ("operator", py_or (py_or (get bus "operator") (get bus "company")) (PStr "Unknown"));
         ("departureTime", py_or (get bus "departure_time") (get bus "departureTime"));
         ("arrivalTime", py_or (get bus "arrival_time") (get bus "arrivalTime"));
         ("duration", py_or (get bus "duration") (get bus "duration_minutes"));
         ("price", get bus "price");
         ("currency", get bus "currency");
         ("bookingUrl", py_or (get bus "booking_url") (get bus "bookingUrl"))].

(** [for bus in ...: out.append(...)]: [bus.get] on a non-dict raises
    [AttributeError], which ends the loop; what [out] holds is returned. *)
Fixpoint append_buses (bs : list PyVal) : list PyVal :=
  match bs with
  | [] => []
  | PDict b :: r => bus_entry b :: append_buses r
  | _ :: _ => []
  end.

(** the items of [buses[:5]] *)
Definition slice5_iter (v : PyVal) : result (list PyVal) :=
  match v with
  | PList l => Ok (firstn 5 l)
  | PStr s => Ok (map (fun c => PStr (String c EmptyString)) (firstn 5 (list_ascii_of_string s)))
  | PDict _ => Err (PyExc "TypeError" "unhashable type: 'slice'")
  | _ => Err (PyExc "TypeError" "object is not subscriptable")
  end.

(** [for item in data["content"]]: a text item whose [text] parses
    replaces [data]; [json.loads] failing (or given a non-string) is
    swallowed by the bare [except]. *)
Fixpoint scan_content (items : list PyVal) (data : PyVal) : result PyVal :=
  match items with
  | [] => Ok data
  | PDict it :: r =>
      match get it "type" with
      | PStr t =>
          if String.eqb t "text" then
            scan_content r (match get_default it "text" (PStr "{}") with
                            | PStr s => match json_loads s with Some v => v | None => data end
                            | _ => data
                            end)
          else scan_content r data
      | _ => scan_content r data
      end
  | _ :: _ => Err (PyExc "AttributeError" "object has no attribute 'get'")
  end.

(** the body of the [try] of [_map_mcp_bus]; [out] is still empty when
    anything before the loop raises *)
Definition map_mcp_bus_body (data : PyVal) : result (list PyVal) :=
  has_content <- py_in "content" data ;;
  data' <- (if has_content then
              c <- py_index data "content" ;;
              match c with PList items => scan_content items data | _ => Ok data end
            else Ok data) ;;
  d <- as_dict data' ;;
  let buses := py_or (py_or (py_or (get d "buses") (get d "options")) (get d "results")) (PList []) in
  bs <- slice5_iter buses ;;
  Ok (append_buses bs).

Definition _map_mcp_bus (data : PyVal) : list PyVal :=
  match map_mcp_bus_body data with Ok out => out | Err _ => [] end.

Definition bus_entry_keys : list string :=
  ["mode"; "operator"; "departureTime"; "arrivalTime"; "duration"; "price"; "currency"; "bookingUrl"].

(** ** prompt_parser.py: [_extract_first_json_block] *)

Definition lbrace : ascii := "{".
Definition rbrace : ascii := "}".

(** [_extract_first_json_block(text)] *)
Definition _extract_first_json_block (text : string) : result string :=
  let start := str_find lbrace text in
  let end_ := str_rfind rbrace text in
  if Z.eqb start (-1) || Z.eqb end_ (-1) || Z.leb end_ start then
    Err (PyExc "ValueError" "No JSON object found in response")
  else Ok (substring (Z.to_nat start) (Z.to_nat (end_ + 1 - start)) text).

(** the JSON step of [parse_prompt]: [json.loads(raw_text)], falling back
    to [json.loads(_extract_first_json_block(raw_text))] *)
Definition parse_prompt_json (raw_text : string) : result PyVal :=
  match json_loads raw_text with
  | Some data => Ok data
  | None =>
      block <- _extract_first_json_block raw_text ;;
      match json_loads block with
      | Some data => Ok data
      | None => Err json_decode_error
      end
  end.

(** ** planner.py: [_map_mcp_weather] *)

(** the dict appended to [out] for one forecast day [d] *)
Definition weather_entry (d : dict) : PyVal :=
  PDict [("dateISO", py_or (py_or (get d "dateISO") (get d "date")) (PStr ""));
         ("highC", py_or (py_or (get d "highC") (get d "high")) PNone);
         ("lowC", py_or (py_or (get d "lowC") (get d "low")) PNone);
         ("precipitationChance", py_or (py_or (get d "precipitationChance") (get d "precipChance")) PNone);
         ("source", py_or (get d "source") (PStr "MCP"));
         ("isForecast", PBool true)].

(** [for d in days: out.append(...)]: [d.get] on a non-dict raises
    [AttributeError], which ends the loop; [out] keeps what it holds. *)
Fixpoint append_days (ds : list PyVal) : list PyVal :=
  match ds with
  | [] => []
  | PDict d :: r => weather_entry d :: append_days r
  | _ :: _ => []
  end.

(** [_map_mcp_weather(data, start, end)]; [start] and [end] are unused. *)
Definition _map_mcp_weather (data : PyVal) : list PyVal :=
  match (d <- as_dict data ;;
         let days := py_or (py_or (get d "days") (get d "forecast")) (PList []) in
         it <- py_iter days ;;
         Ok (append_days it)) with
  | Ok out => out
  | Err _ => []
  end.

Definition weather_entry_keys : list string :=
  ["dateISO"; "highC"; "lowC"; "precipitationChance"; "source"; "isForecast"].

(** ** Sample inputs *)

Definition dq : string := String "034" EmptyString.

Definition sample_dates : dict := [("start_date", PStr "2024-02-27"); ("duration", PInt 5)].

(** [{"result":{"tools":[{"name":"a"}]}}] *)
Definition sample_tools_json : string :=
  "{" ++ dq ++ "result" ++ dq ++ ":{" ++ dq ++ "tools" ++ dq ++ ":[{" ++ dq ++ "name" ++ dq ++ ":"
  ++ dq ++ "a" ++ dq ++ "}]}}".

Definition sample_tools_dict : dict :=
  [("result", PDict [("tools", PList [PDict [("name", PStr "a")]])])].


(** [{"days":[{"blocks":[{"items":[{"type":"hotel"}]}]}]}] *)
Definition sample_guard_text : string :=
  "{" ++ dq ++ "days" ++ dq ++ ":[{" ++ dq ++ "blocks" ++ dq ++ ":[{" ++ dq ++ "items" ++ dq
  ++ ":[{" ++ dq ++ "type" ++ dq ++ ":" ++ dq ++ "hotel" ++ dq ++ "}]}]}]}".

(** [{"operator":name}] *)
Definition bus_json (name : string) : string :=
  "{" ++ dq ++ "operator" ++ dq ++ ":" ++ dq ++ name ++ dq ++ "}".

(** six buses, [{"buses":[{"operator":"A"},...,{"operator":"F"}]}] *)
Definition sample_bus_json : string :=
  "{" ++ dq ++ "buses" ++ dq ++ ":[" ++ bus_json "A" ++ "," ++ bus_json "B" ++ "," ++ bus_json "C"
  ++ "," ++ bus_json "D" ++ "," ++ bus_json "E" ++ "," ++ bus_json "F" ++ "]}".

Definition sample_bus_list : list PyVal :=
  map (fun n => PDict [("operator", PStr n)]) ["A"; "B"; "C"; "D"; "E"; "F"].

Definition sample_forecast_dict : dict :=
  [("days", PList []); ("forecast", PList [PDict [("date", PStr "2025-10-15")]; PDict [("highC", PInt 21)]])].

Definition sample_bus_dict : dict := [("buses", PList sample_bus_list)].

(** * Theorems *)

Ltac split_binds H :=
  repeat match type of H with
         | context [bind ?m _] =>
             let E := fresh "E" in
             destruct m eqn:E; cbn [bind] in H; [| discriminate H]
         end.

(** Whenever [normalize_to_contract] returns, its result is a dict with
    exactly the nine contract keys, in order. *)
Lemma normalize_keys : forall now obj r,
  normalize_to_contract now obj = Ok r -> dict_keys r = Some contract_keys.
Proof.
  intros now obj r H. unfold normalize_to_contract in H.
  split_binds H. injection H as <-. reflexivity.
Qed.

(** C1 (code_bug): [normalize_to_contract] raises on decodable inputs:
    [int("2h")] in [ensure_segment_fields] (ValueError), [5 .strip()] in
    [normalize_city_name] (AttributeError) and [float(10**400)] in the
    price coercion (OverflowError). *)
Theorem normalize_to_contract_raises_on_messy_input : forall now,
  normalize_to_contract now bad_duration_input
    = Err (PyExc "ValueError" "invalid literal for int() with base 10") /\
  normalize_to_contract now int_origin_input
    = Err (PyExc "AttributeError" "object has no attribute 'strip'") /\
  normalize_to_contract now huge_price_input
    = Err (PyExc "OverflowError" "int too large to convert to float").
Proof. intros now. repeat split; vm_compute; reflexivity. Qed.

(** C7 (counterexample): no single coercion of the normalizer has the four
    stated values: the amount coercion maps "9.4/10" to 9.41, the rating
    coercion maps "7,880 TL" to None. *)
Lemma numeric_coercion_counterexample :
  coerce_amount (PStr "9.4/10") <> Ok (fdec 94 (-1)) /\
  coerce_rating (PStr "7,880 TL") <> Ok (fdec 7880 0).
Proof. split; vm_compute; discriminate. Qed.

(** C7 (amended): the amount coercion (flight price, hotel priceTotal,
    string amounts of pricing) keeps digits and dots and parses the rest:
    "7,880 TL" gives 7880.0, None gives None, "not a number" gives None
    and "9.4/10" gives 9.41; the hotel rating coercion parses the part
    before "/": "9.4/10" gives 9.4, while "7,880 TL" gives None.  Neither
    raises on a string. *)
Theorem numeric_coercions_values :
  coerce_amount (PStr "7,880 TL") = Ok (fdec 7880 0) /\
  coerce_amount PNone = Ok PNone /\
  coerce_amount (PStr "not a number") = Ok PNone /\
  coerce_amount (PStr "9.4/10") = Ok (fdec 941 (-2)) /\
  coerce_rating (PStr "9.4/10") = Ok (fdec 94 (-1)) /\
  coerce_rating PNone = Ok PNone /\
  coerce_rating (PStr "not a number") = Ok PNone /\
  coerce_rating (PStr "7,880 TL") = Ok PNone /\
  (forall s, coerce_amount (PStr s) = Ok (amount_of_string s)) /\
  (forall s, exists v, coerce_rating (PStr s) = Ok v).
Proof.
  repeat split; try (vm_compute; reflexivity).
  intros s. unfold coerce_rating, float_or_none, py_float.
  destruct (str_contains "/" s);
    [destruct (py_float_of_string (split_first "/" s)) | destruct (py_float_of_string s)];
    eexists; reflexivity.
Qed.

(** C9 (counterexample): a second normalization changes an output (the
    nested amount "50 TL" becomes 50.0), and may even raise (a non-string
    [parsed.originCity] is only read on the second pass). *)
Lemma normalize_not_idempotent :
  match normalize_to_contract NOW nested_amount_input with
  | Ok r1 => normalize_value NOW r1 <> Ok r1
  | Err _ => False
  end /\
  match normalize_to_contract NOW late_origin_input with
  | Ok r1 => normalize_value NOW r1 = Err (PyExc "AttributeError" "object has no attribute 'strip'")
  | Err _ => False
  end.
Proof. split; vm_compute; [discriminate | reflexivity]. Qed.

(** C9 (amended): normalizing an output again keeps the nine contract
    keys whenever both passes return. *)
Theorem renormalize_keeps_contract_keys : forall now1 now2 obj r1 r2,
  normalize_to_contract now1 obj = Ok r1 ->
  normalize_value now2 r1 = Ok r2 ->
  dict_keys r1 = Some contract_keys /\ dict_keys r2 = Some contract_keys.
Proof.
  intros now1 now2 obj r1 r2 H1 H2. split.
  - exact (normalize_keys _ _ _ H1).
  - destruct r1 as [| | | | | | d]; try discriminate H2.
    exact (normalize_keys _ _ _ H2).
Qed.

Lemma renormalize_keeps_contract_keys_witness :
  normalize_to_contract NOW nested_amount_input
    = Ok (match normalize_to_contract NOW nested_amount_input with Ok r => r | Err _ => PNone end) /\
  dict_keys (match normalize_to_contract NOW nested_amount_input with Ok r => r | Err _ => PNone end)
    = Some contract_keys.
Proof.
  split; [vm_compute; reflexivity |].
  apply (proj1 (renormalize_keeps_contract_keys NOW NOW nested_amount_input
                  (match normalize_to_contract NOW nested_amount_input with Ok r => r | Err _ => PNone end)
                  (match normalize_value NOW (match normalize_to_contract NOW nested_amount_input with Ok r => r | Err _ => PNone end) with Ok r => r | Err _ => PNone end)
                  ltac:(vm_compute; reflexivity) ltac:(vm_compute; reflexivity))).
Defined.

(** ** [MCPClient.call_tool] *)

Definition tool_result_with_error : PyVal :=
  PDict [("error", PStr "upstream timeout"); ("content", PList [])].

(** C2 (counterexample): a server [result] that itself carries an [error]
    key is returned as it is, next to its other keys. *)
Lemma call_tool_counterexample :
  call_tool true true
    (PostAnswer 200 (PDict [("jsonrpc", PStr "2.0"); ("id", PInt 1);
                            ("result", tool_result_with_error)]))
  = PDict [("error", PStr "upstream timeout"); ("content", PList [])].
Proof. reflexivity. Qed.

(** C2 (amended): [call_tool] returns either the [result] member of a
    2xx JSON-RPC answer, unchanged (any JSON value), or a dict whose only
    key is [error]. *)
Theorem call_tool_result_or_error : forall session_initialized initialize_ok post,
  (exists status d, post = PostAnswer status (PDict d) /\ (200 <= status < 300) /\
     dict_lookup d "result" = Some (call_tool session_initialized initialize_ok post)) \/
  (exists m, call_tool session_initialized initialize_ok post = PDict [("error", m)]).
Proof.
  intros si io post. unfold call_tool.
  destruct (negb si && negb io); [right; eexists; reflexivity |].
  destruct post as [e | status data]; [right; eexists; reflexivity |].
  unfold call_tool_body, raise_for_status.
  destruct (Z.leb 200 status && Z.ltb status 300) eqn:Hs; cbn [bind];
    [| right; eexists; reflexivity].
  destruct data as [| b | z | f | str | l | d]; cbn [py_in bind];
    repeat match goal with
           | |- context [if ?c then _ else _] => destruct c eqn:?; cbn [bind py_index]
           end;
    try (right; eexists; reflexivity).
  - destruct (dict_lookup d "result") as [v |] eqn:Hr; cbn [bind];
      [| right; eexists; reflexivity].
    left. exists status, d. rewrite Hr. apply andb_prop in Hs as [H1 H2].
    apply Z.leb_le in H1. apply Z.ltb_lt in H2. auto.
  - destruct (dict_lookup d "error"); cbn [bind]; right; eexists; reflexivity.
Qed.

(** ** The JSON guard and the turn loop of [generate] *)

Lemma gen_loop_tool_turns : forall call_model finish now k fuel t,
  (forall i, (i < k)%nat -> exists r, call_model (t + i)%nat = Ok r /\ stop_reason r = PStr "tool_use") ->
  (k <= fuel)%nat ->
  gen_loop call_model finish now fuel t = gen_loop call_model finish now (fuel - k) (t + k).
Proof.
  induction k as [| k IH]; intros fuel t Htool Hk.
  - rewrite Nat.sub_0_r, Nat.add_0_r. reflexivity.
  - destruct fuel as [| fuel]; [lia |].
    destruct (Htool 0%nat ltac:(lia)) as [r [Hr Hsr]]. rewrite Nat.add_0_r in Hr.
    cbn [gen_loop]. rewrite Hr, Hsr.
    rewrite (IH fuel (S t)); [| | lia].
    + f_equal. lia.
    + intros i Hi. destruct (Htool (S i) ltac:(lia)) as [r' Hr'].
      rewrite Nat.add_succ_r in Hr'. exists r'. exact Hr'.
Qed.

(** the exception [_json_only_guard] raises when both parses fail *)
Definition unparsable_error (raw : string) : exn :=
  match brace_span raw with
  | Some _ => json_decode_error
  | None => PyExc "ValueError" "No valid JSON found in response"
  end.

(** C3 (counterexample): a final text that is not JSON and has no valid
    brace span makes [generate] raise instead of returning the fallback
    plan. *)
Lemma unparsable_text_no_fallback :
  generate (fun _ => Ok (mkResponse (PStr "end_turn")
                          [PDict [("type", PStr "text"); ("text", PStr "Here it is: {plan: none}")]]))
           (fun plan => Ok plan) NOW
  = RRaised json_decode_error /\
  RRaised json_decode_error <> RFallback.
Proof. split; [vm_compute; reflexivity | discriminate]. Qed.

(** C3 (amended): when the final text of the first [end_turn] reply
    (reached after tool-use turns) is not JSON, the guard re-parses the
    span from the first "{" to the last "}"; when there is no such span or
    it does not parse either, that exception leaves [generate]: the run
    raises, it does not build the fallback plan. *)
Theorem unparsable_final_text_raises : forall call_model finish now k r raw,
  (forall i, (i < k)%nat -> exists r', call_model i = Ok r' /\ stop_reason r' = PStr "tool_use") ->
  (k < max_turns)%nat ->
  call_model k = Ok r ->
  stop_reason r = PStr "end_turn" ->
  first_text (content r) = Ok (Some (PStr raw)) ->
  String.eqb (py_strip raw) EmptyString = false ->
  json_loads raw = None ->
  match brace_span raw with Some span => json_loads span = None | None => True end ->
  _json_only_guard raw = Err (unparsable_error raw) /\
  generate call_model finish now = RRaised (unparsable_error raw).
Proof.
  intros call_model finish now k r raw Htool Hk Hr Hstop Htext Hne Hraw Hspan.
  assert (Hg : _json_only_guard raw = Err (unparsable_error raw)).
  { unfold _json_only_guard, unparsable_error. rewrite Hne, Hraw.
    destruct (brace_span raw) as [span |]; [rewrite Hspan |]; reflexivity. }
  split; [exact Hg |].
  unfold generate. rewrite (gen_loop_tool_turns call_model finish now k max_turns 0%nat);
    [| exact Htool | lia].
  cbn [Nat.add]. destruct (max_turns - k)%nat as [| f] eqn:Hf; [unfold max_turns in *; lia |].
  cbn [gen_loop]. rewrite Hr, Hstop, Htext.
  unfold final_answer, guard_value. rewrite Hg. reflexivity.
Qed.

Lemma unparsable_final_text_raises_witness :
  _json_only_guard "Here it is: {plan: none}" = Err (unparsable_error "Here it is: {plan: none}") /\
  generate (fun _ => Ok (mkResponse (PStr "end_turn")
                          [PDict [("type", PStr "text"); ("text", PStr "Here it is: {plan: none}")]]))
           (fun plan => Ok plan) NOW
  = RRaised (unparsable_error "Here it is: {plan: none}").
Proof.
  apply (unparsable_final_text_raises _ _ NOW 0%nat
           (mkResponse (PStr "end_turn")
              [PDict [("type", PStr "text"); ("text", PStr "Here it is: {plan: none}")]])
           "Here it is: {plan: none}").
  - intros i Hi. lia.
  - unfold max_turns. lia.
  - reflexivity.
  - reflexivity.
  - reflexivity.
  - vm_compute. reflexivity.
  - vm_compute. reflexivity.
  - vm_compute. reflexivity.
Defined.

(** ** The retry loop of [chat_with_tools] *)

Lemma chat_loop_spec : forall base max reply n a k last,
  (a + n = max)%nat -> (a <= k)%nat -> (k < max)%nat ->
  (forall i, (a <= i < k)%nat -> is_429 (reply i) = true) ->
  (is_429 (reply k) = false \/ k = (max - 1)%nat) ->
  chat_loop base max reply n a last
  = (app (backoff_trace_from base reply a (k - a)) [Posted k], outcome_at reply k).
Proof.
  intros base max reply n. induction n as [| n IH]; intros a k last Hn Hak Hk H429 Hend.
  - lia.
  - cbn [chat_loop].
    destruct (Nat.eq_dec a k) as [-> | Hne].
    + rewrite Nat.sub_diag. cbn [backoff_trace_from app]. unfold outcome_at.
      destruct (reply k) as [body | code ra | e] eqn:Hr; try reflexivity.
      destruct (Z.eqb code 429) eqn:Hc; [| reflexivity].
      destruct Hend as [Hend | Hend]; [unfold is_429 in Hend; try rewrite Hr in Hend; try rewrite Hc in Hend; discriminate |].
      replace (k <? max - 1)%nat with false by (symmetry; apply Nat.ltb_ge; lia).
      reflexivity.
    + assert (Ha : is_429 (reply a) = true) by (apply H429; lia).
      unfold is_429 in Ha. destruct (reply a) as [| code ra |] eqn:Hr; try discriminate.
      rewrite Ha. replace (a <? max - 1)%nat with true by (symmetry; apply Nat.ltb_lt; lia).
      rewrite (IH (S a) k true); [| lia | lia | lia | intros i Hi; apply H429; lia | exact Hend].
      replace (k - a)%nat with (S (k - S a)) by lia.
      cbn [backoff_trace_from app]. rewrite Hr. reflexivity.
Qed.

(** C5: [chat_with_tools] retries only on 429.  Let [k] be the attempt
    that ends the call: the first attempt not answered by 429, or the last
    of the [max_retries] attempts.  Every earlier attempt is a 429 followed
    by a sleep of [base_delay * 2^attempt] seconds, or of
    [float(retry-after)] when that header is present and parses; attempt
    [k] ends the call with its own result: the body on success, the same
    non-429 error raised unchanged, or [RateLimitError] when the last
    attempt is a 429 too. *)
Theorem chat_with_tools_retry_policy : forall base_delay max_retries reply k,
  (k < max_retries)%nat ->
  (forall i, (i < k)%nat -> is_429 (reply i) = true) ->
  (is_429 (reply k) = false \/ k = (max_retries - 1)%nat) ->
  chat_with_tools base_delay max_retries reply
  = (app (backoff_trace base_delay reply k) [Posted k], outcome_at reply k).
Proof.
  intros base max reply k Hk H429 Hend. unfold chat_with_tools, backoff_trace.
  rewrite (chat_loop_spec base max reply max 0 k false); [| lia | lia | exact Hk | | exact Hend].
  - rewrite Nat.sub_0_r. reflexivity.
  - intros i Hi. apply H429. lia.
Qed.

Definition always_429 (attempt : nat) : http_reply := HStatus 429 None.

Lemma chat_with_tools_retry_policy_witness :
  chat_with_tools (mkDec 2 0) 3 always_429
  = ([Posted 0; Slept (FFin (mkDec 2 0)); Posted 1; Slept (FFin (mkDec 4 0)); Posted 2],
     RaisedRateLimit).
Proof.
  rewrite (chat_with_tools_retry_policy (mkDec 2 0) 3 always_429 2).
  - vm_compute. reflexivity.
  - lia.
  - intros i Hi. reflexivity.
  - right. reflexivity.
Defined.

(** ** The session pool *)

Module PoolProofs.
Import Pool.

  (** [Creating] and [WaitQueue] tasks are the holder of [_lock]; a task
      that is [Creating] saw room for one more session. *)
Definition inv (max_size : nat) (s : state) : Prop :=
    (total_created s <= max_size)%nat /\
    (forall i, th s i = Creating -> lock s = Some i /\ (total_created s < max_size)%nat) /\
    (forall i, th s i = WaitQueue -> lock s = Some i).

Lemma upd_same : forall f i p, upd f i p i = p.
  Proof. intros. unfold upd. rewrite Nat.eqb_refl. reflexivity. Qed.

Lemma upd_other : forall f i j p, j <> i -> upd f i p j = f j.
  Proof. intros f i j p H. unfold upd. apply Nat.eqb_neq in H. rewrite H. reflexivity. Qed.

Ltac case_thread i j H :=
    destruct (Nat.eq_dec j i) as [-> | ?];
    [rewrite upd_same in H | rewrite upd_other in H by assumption].

Lemma inv_initial : forall max_size s, initial max_size s -> inv max_size s.
  Proof.
    intros max_size s [Hle [Hl Hth]]. split; [exact Hle | split];
      intros i Hi; rewrite Hth in Hi; discriminate.
  Qed.

Lemma inv_step : forall max_size s s', inv max_size s -> step max_size s s' -> inv max_size s'.
  Proof.
    intros max_size s s' Hinv Hstep. revert Hinv.
    destruct Hstep as [? i Hi ? | ? i Hi ? | ? i Hi ? ? | ? i Hi ? ?
                      | ? i Hi | ? i Hi | ? i Hi ? | ? i Hi];
      intros [Hle [Hc Hw]]; unfold inv; cbn [total_created lock th idle].
    all: split; [first [lia | destruct (Hc i Hi); lia] | split].
    all: intros j Hj; case_thread i j Hj; try discriminate.
    all: try (split; [reflexivity | assumption]); try reflexivity.
    all: try (pose proof (Hc j Hj)); try (pose proof (Hw j Hj));
         try (pose proof (Hc i Hi)); try (pose proof (Hw i Hi)).
    all: intuition congruence.
  Qed.

Lemma inv_reachable : forall max_size s0 s,
    initial max_size s0 -> reachable max_size s0 s -> inv max_size s.
  Proof.
    intros max_size s0 s H0 Hr. induction Hr as [| s s' Hr IH Hs].
    - apply inv_initial. exact H0.
    - apply (inv_step max_size s s'); assumption.
  Qed.

  (** C4: in every state reachable by any interleaving of any number of
      acquirers, starting from a pool with at most [max_size] sessions and
      nobody inside [get_session], [total_created <= max_size]. *)
Theorem pool_total_created_bounded : forall max_size s0 s,
    initial max_size s0 -> reachable max_size s0 s -> (total_created s <= max_size)%nat.
  Proof.
    intros max_size s0 s H0 Hr. apply (inv_reachable max_size s0 s H0 Hr).
  Qed.

  (** A pool with [max_size] 2 and an empty queue, before any request. *)
Definition race_start : state := mkState 0 0 None (fun _ => Outside).

  (** Three acquirers (more than [max_size]) race on the empty queue: all
      three miss; task 0 and then task 1 take the lock and create a
      session; task 2 finds the pool exhausted and waits on the queue until
      task 0 releases its session, which task 2 then takes. Every state of
      the run has at most 2 sessions created, the last one included. *)
Lemma pool_total_created_bounded_witness :
    exists s, reachable 2 race_start s /\ th s 0 = Outside /\ th s 1 = Holding /\
      th s 2 = Holding /\ total_created s = 2%nat /\ (total_created s <= 2)%nat.
  Proof.
    assert (H0 : initial 2 race_start)
      by (unfold initial, race_start; cbn; split; [lia | split; [reflexivity | intros i; reflexivity]]).
    pose proof (reach_init 2 race_start) as R0.
    pose proof (reach_step 2 race_start _ _ R0 ltac:(apply (step_miss 2 _ 0); reflexivity)) as R1.
    pose proof (reach_step 2 race_start _ _ R1 ltac:(apply (step_miss 2 _ 1); reflexivity)) as R2.
    pose proof (reach_step 2 race_start _ _ R2 ltac:(apply (step_miss 2 _ 2); reflexivity)) as R3.
    pose proof (reach_step 2 race_start _ _ R3 ltac:(apply (step_lock_create 2 _ 0); [reflexivity | reflexivity | cbn; lia])) as R4.
    pose proof (reach_step 2 race_start _ _ R4 ltac:(apply (step_created 2 _ 0); reflexivity)) as R5.
    pose proof (reach_step 2 race_start _ _ R5 ltac:(apply (step_lock_create 2 _ 1); [reflexivity | reflexivity | cbn; lia])) as R6.
    pose proof (reach_step 2 race_start _ _ R6 ltac:(apply (step_created 2 _ 1); reflexivity)) as R7.
    pose proof (reach_step 2 race_start _ _ R7 ltac:(apply (step_lock_exhausted 2 _ 2); [reflexivity | reflexivity | cbn; lia])) as R8.
    pose proof (reach_step 2 race_start _ _ R8 ltac:(apply (step_release 2 _ 0); reflexivity)) as R9.
    pose proof (reach_step 2 race_start _ _ R9 ltac:(apply (step_queue_get 2 _ 2); [reflexivity | cbn; lia])) as R10.
    eexists. split; [exact R10|].
    split; [reflexivity | split; [reflexivity | split; [reflexivity | split; [reflexivity |]]]].
    apply (pool_total_created_bounded 2 race_start _ H0 R10).
  Defined.

  (** What one [acquire] followed by its [release] does to the idle count. *)
Definition acquire_release_idle (max_size : nat) (init_ok : bool) (c : counters) : Prop :=
    match acquire_release max_size init_ok c with
    | Acquired c' => c_idle c' = (if (0 <? c_idle c)%nat then c_idle c else S (c_idle c))
    | AcquireRaised c' => c_idle c' = c_idle c
    | Blocked => c_idle c = 0%nat /\ (max_size <= c_total_created c)%nat
    end.

Definition empty_counters : counters := mkCounters 0 0 0 0 0 0.

  (** C6 fails for an empty queue: the acquire creates a session and the
      release parks it, so [pool_size] goes from 0 to 1. *)
Lemma acquire_release_changes_pool_size :
    exists c', acquire_release 10 true empty_counters = Acquired c' /\
      st_pool_size (get_stats 10 c') = 1%nat /\ st_pool_size (get_stats 10 empty_counters) = 0%nat.
  Proof. eexists. split; [reflexivity | split; reflexivity]. Qed.

  (** C6 amended: with no more idle sessions than [max_size] (or an
      unbounded queue), acquire then release keeps the idle count when a
      session was idle; from an empty queue a newly created session is
      parked, raising it by one; a failed creation leaves it unchanged;
      and with the pool exhausted the acquire blocks. *)
Theorem acquire_release_idle_count : forall max_size init_ok c,
    (c_idle c <= max_size \/ max_size = 0)%nat ->
    acquire_release_idle max_size init_ok c.
  Proof.
    intros max_size init_ok c Hc.
    unfold acquire_release_idle, acquire_release, acquire.
    destruct (0 <? c_idle c)%nat eqn:Hi.
    - apply Nat.ltb_lt in Hi. unfold release, queue_full. cbn [c_idle].
      destruct ((0 <? max_size)%nat && (max_size <=? c_idle c - 1)%nat) eqn:Hf.
      + apply andb_prop in Hf as [H1 H2]. apply Nat.ltb_lt in H1. apply Nat.leb_le in H2. lia.
      + lia.
    - apply Nat.ltb_ge in Hi.
      destruct (c_total_created c <? max_size)%nat eqn:Ht.
      + destruct init_ok; cbn [c_idle]; [| reflexivity].
        unfold release, queue_full. cbn [c_idle].
        destruct ((0 <? max_size)%nat && (max_size <=? c_idle c)%nat) eqn:Hf.
        * apply andb_prop in Hf as [H1 H2]. apply Nat.ltb_lt in H1. apply Nat.leb_le in H2.
          apply Nat.ltb_lt in Ht. lia.
        * reflexivity.
      + apply Nat.ltb_ge in Ht. split; lia.
  Qed.

Lemma acquire_release_idle_count_witness : acquire_release_idle 10 true (mkCounters 3 5 0 0 0 0).
  Proof. apply (acquire_release_idle_count 10 true (mkCounters 3 5 0 0 0 0)). cbn. lia. Defined.
End PoolProofs.

(** ** End dates *)

Lemma dict_lookup_set_same : forall d k v, dict_lookup (dict_set d k v) k = Some v.
Proof.
  induction d as [| [k' v'] r IH]; intros k v; cbn.
  - rewrite String.eqb_refl. reflexivity.
  - destruct (String.eqb k k') eqn:E; cbn; rewrite E; [reflexivity | apply IH].
Qed.

Lemma get_of_lookup : forall d k v, dict_lookup d k = Some v -> get d k = v.
Proof. intros d k v H. unfold get, get_default. rewrite H. reflexivity. Qed.

(** C8: whatever else the [dates] dict holds, a [start_date] of
    "2025-10-15", a [duration] of 4 and a missing or empty [end_date]
    normalise to an [end_date] of "2025-10-18". *)
Theorem normalize_dates_computes_end_date : forall dates,
  dict_lookup dates "start_date" = Some (PStr "2025-10-15") ->
  dict_lookup dates "duration" = Some (PInt 4) ->
  truthy (get dates "end_date") = false ->
  exists d', normalize_dates dates = Ok d' /\ dict_lookup d' "end_date" = Some (PStr "2025-10-18").
Proof.
  intros dates Hs Hd He.
  apply get_of_lookup in Hs. apply get_of_lookup in Hd.
  unfold normalize_dates. rewrite Hd. cbn [bind].
  exists (dict_set dates "end_date" (PStr "2025-10-18")). split.
  - f_equal. unfold _compute_end_date_if_missing. rewrite Hs, Hd, He. reflexivity.
  - apply dict_lookup_set_same.
Qed.

Lemma normalize_dates_computes_end_date_witness :
  exists d', normalize_dates [("start_date", PStr "2025-10-15"); ("duration", PInt 4);
                              ("end_date", PNone)] = Ok d'
             /\ dict_lookup d' "end_date" = Some (PStr "2025-10-18").
Proof.
  apply normalize_dates_computes_end_date; reflexivity.
Defined.

(** ** The tool catalogue cache *)

Lemma run_tool_calls_cached_empty : forall answers n,
  run_tool_calls answers (mkTools (Some []) n) = (map (fun _ => Ok []) answers, mkTools (Some []) n).
Proof.
  induction answers as [| a rest IH]; intros n; cbn; [reflexivity |].
  rewrite IH. reflexivity.
Qed.

(** C10: when the first call finds no cache and the server yields nothing
    (a falsy answer), [[]] is cached; every later call returns [[]]
    without asking the server again, whatever it would answer; only the
    reset of [/tools/refresh] makes the next call ask again. *)
Theorem tools_cache_keeps_empty : forall first rest s,
  cached s = None -> truthy first = false ->
  run_tool_calls (first :: rest) s
  = (Ok [] :: map (fun _ => Ok []) rest, mkTools (Some []) (S (server_fetches s)))
  /\ forall next,
       server_fetches (snd (get_mcp_tools_schema next (refresh_reset (mkTools (Some []) (S (server_fetches s))))))
       = S (S (server_fetches s)).
Proof.
  intros first rest s Hc Hf. split.
  - cbn [run_tool_calls]. unfold get_mcp_tools_schema at 1. rewrite Hc, Hf. cbn [negb server_fetches].
    rewrite run_tool_calls_cached_empty. reflexivity.
  - intros next. unfold get_mcp_tools_schema, refresh_reset. cbn [cached server_fetches].
    destruct (negb (truthy next)); [reflexivity |].
    destruct (it <- py_iter next ;; mapM convert_mcp_tool_to_anthropic it); reflexivity.
Qed.

Definition sample_tool : PyVal := PDict [("name", PStr "search_flights")].

Lemma tools_cache_keeps_empty_witness :
  run_tool_calls [PList []; PList [sample_tool]; PList [sample_tool]] (mkTools None 0)
  = ([Ok []; Ok []; Ok []], mkTools (Some []) 1).
Proof.
  apply (tools_cache_keeps_empty (PList []) [PList [sample_tool]; PList [sample_tool]] (mkTools None 0));
    reflexivity.
Defined.

(** * Further properties of the code *)

(** ** Calendar arithmetic of [datetime] and [timedelta] *)

Lemma yoe_core : forall doe, 0 <= doe <= 146096 ->
  let yoe := (doe - doe/1460 + doe/36524 - doe/146096)/365 in
  let doy := doe - (365*yoe + yoe/4 - yoe/100) in
  0 <= yoe <= 399 /\ 0 <= doy <= 365 /\
  (doy = 365 -> ((yoe + 1) mod 4 = 0 /\ (yoe + 1) mod 100 <> 0) \/ yoe = 399).
Proof.
  intros doe H yoe doy. subst yoe doy.
  Z.div_mod_to_equations; lia.
Qed.

Lemma leap_of_full_year : forall yoe era,
  0 <= yoe <= 399 ->
  ((yoe + 1) mod 4 = 0 /\ (yoe + 1) mod 100 <> 0) \/ yoe = 399 ->
  is_leap (yoe + era * 400 + 1) = true.
Proof.
  intros yoe era Hy H. unfold is_leap.
  assert (E4 : (yoe + era * 400 + 1) mod 4 = (yoe + 1) mod 4) by (Z.div_mod_to_equations; lia).
  assert (E100 : (yoe + era * 400 + 1) mod 100 = (yoe + 1) mod 100) by (Z.div_mod_to_equations; lia).
  assert (E400 : yoe = 399 -> (yoe + era * 400 + 1) mod 400 = 0) by (intros; Z.div_mod_to_equations; lia).
  rewrite E4, E100.
  destruct H as [[H4 H100] | H399].
  - rewrite H4. apply Z.eqb_neq in H100. rewrite H100. reflexivity.
  - rewrite (E400 H399). subst yoe. reflexivity.
Qed.

Lemma civil_from_days_valid : forall z y m d,
  civil_from_days z = (y, m, d) ->
  1 <= m <= 12 /\ 1 <= d <= days_in_month y m /\ days_from_civil y m d = z.
Proof.
  intros z y m d H. unfold civil_from_days in H.
  set (z0 := z + 719468) in H.
  set (era := z0 / 146097) in H.
  set (doe := z0 - era * 146097) in H.
  assert (Hdoe : 0 <= doe <= 146096) by (subst doe era; Z.div_mod_to_equations; lia).
  destruct (yoe_core doe Hdoe) as (Hy & Hd & Hl).
  set (yoe := (doe - doe/1460 + doe/36524 - doe/146096)/365) in *.
  set (doy := doe - (365*yoe + yoe/4 - yoe/100)) in *.
  assert (Hdoy : doy = doe - (365*yoe + yoe/4 - yoe/100)) by reflexivity.
  clearbody yoe doy.
  set (mp := (5 * doy + 2) / 153) in H.
  assert (Hmp : 0 <= mp <= 11) by (subst mp; Z.div_mod_to_equations; lia).
  assert (Hmpd : 153 * mp <= 5 * doy + 2 < 153 * mp + 153) by (subst mp; Z.div_mod_to_equations; lia).
  clearbody mp.
  assert (Hc : mp = 0 \/ mp = 1 \/ mp = 2 \/ mp = 3 \/ mp = 4 \/ mp = 5 \/ mp = 6 \/ mp = 7
            \/ mp = 8 \/ mp = 9 \/ mp = 10 \/ mp = 11) by lia.
  assert (Hz : era * 146097 + doe - 719468 = z) by (subst doe z0; lia).
  clearbody doe era z0.
  destruct Hc as [->|[->|[->|[->|[->|[->|[->|[->|[->|[->|[->| ->]]]]]]]]]]];
    cbn -[Z.div Z.modulo Z.mul Z.add Z.sub] in H; injection H as <- <- <-;
    unfold days_in_month, days_from_civil; cbn -[Z.div Z.modulo Z.mul Z.add Z.sub is_leap];
    replace (yoe + era * 400 - era * 400) with yoe by ring;
    try replace (yoe + era * 400 + 1 - 1) with (yoe + era * 400) by ring;
    (assert (Hera : (yoe + era * 400) / 400 = era) by (Z.div_mod_to_equations; lia));
    rewrite ?Hera;
    replace (yoe + era * 400 - era * 400) with yoe by ring.
  all: try (Z.div_mod_to_equations; lia).
  destruct (is_leap (yoe + era * 400 + 1)) eqn:HL.
  - Z.div_mod_to_equations; lia.
  - assert (doy <> 365).
    { intro E. rewrite (leap_of_full_year yoe era Hy (Hl E)) in HL. discriminate. }
    Z.div_mod_to_equations; lia.
Qed.

Lemma dfc_ge_1000 : forall y m d, 1000 <= y -> 1 <= m <= 12 -> 1 <= d ->
  days_from_civil 1000 1 1 <= days_from_civil y m d.
Proof.
  intros y m d Hy Hm Hd. unfold days_from_civil.
  destruct (Z.leb_spec m 2), (Z.ltb_spec 2 m); try lia;
  cbn -[Z.div Z.mul Z.add Z.sub]; Z.div_mod_to_equations; lia.
Qed.

Lemma dfc_lt_1000 : forall y m d, y < 1000 -> 1 <= m <= 12 -> 1 <= d <= 31 ->
  days_from_civil y m d < days_from_civil 1000 1 1.
Proof.
  intros y m d Hy Hm Hd. unfold days_from_civil.
  destruct (Z.leb_spec m 2), (Z.ltb_spec 2 m); try lia;
  cbn -[Z.div Z.mul Z.add Z.sub]; Z.div_mod_to_equations; lia.
Qed.

Lemma dfc_gt_9999 : forall y m d, 9999 < y -> 1 <= m <= 12 -> 1 <= d ->
  days_from_civil 9999 12 31 < days_from_civil y m d.
Proof.
  intros y m d Hy Hm Hd. unfold days_from_civil.
  destruct (Z.leb_spec m 2), (Z.ltb_spec 2 m); try lia;
  cbn -[Z.div Z.mul Z.add Z.sub]; Z.div_mod_to_equations; lia.
Qed.

Lemma digit_char_props : forall k, 0 <= k <= 9 ->
  is_digit (digit_char k) = true /\ digit_val (digit_char k) = k.
Proof.
  intros k Hk.
  assert (k = 0 \/ k = 1 \/ k = 2 \/ k = 3 \/ k = 4 \/ k = 5 \/ k = 6 \/ k = 7 \/ k = 8 \/ k = 9)
    as [->|[->|[->|[->|[->|[->|[->|[->|[->| ->]]]]]]]]] by lia; split; reflexivity.
Qed.

Lemma pad4_digits : forall y, 1000 <= y <= 9999 ->
  exists a b c e, pad 4 y = String a (String b (String c (String e EmptyString)))
    /\ is_digit a = true /\ is_digit b = true /\ is_digit c = true /\ is_digit e = true
    /\ digits_value [a; b; c; e] = y.
Proof.
  intros y Hy. unfold pad, nat_digits.
  assert (Hf : (3 <= Z.to_nat (Z.log2_up (y + 1)))%nat).
  { assert (3 <= Z.log2_up (y + 1)).
    { change 3 with (Z.log2_up 8). apply Z.log2_up_le_mono. lia. }
    lia. }
  destruct (Z.to_nat (Z.log2_up (y + 1))) as [|[|[|f]]] eqn:E; try lia.
  cbn [pos_digits_fuel].
  destruct (Z.ltb_spec y 10); try lia.
  destruct (Z.ltb_spec (y / 10) 10); [Z.div_mod_to_equations; lia|].
  destruct (Z.ltb_spec (y / 10 / 10) 10); [Z.div_mod_to_equations; lia|].
  destruct (Z.ltb_spec (y / 10 / 10 / 10) 10); [|Z.div_mod_to_equations; lia].
  destruct (digit_char_props (y / 10 / 10 / 10)) as [A1 A2]; [Z.div_mod_to_equations; lia|].
  destruct (digit_char_props (y / 10 / 10 mod 10)) as [B1 B2]; [Z.div_mod_to_equations; lia|].
  destruct (digit_char_props (y / 10 mod 10)) as [C1 C2]; [Z.div_mod_to_equations; lia|].
  destruct (digit_char_props (y mod 10)) as [E1 E2]; [Z.div_mod_to_equations; lia|].
  do 4 eexists. split; [reflexivity|].
  repeat split; try assumption.
  unfold digits_value; cbn [fold_left]. rewrite A2, B2, C2, E2.
  Z.div_mod_to_equations; lia.
Qed.

Lemma days_in_month_le_31 : forall y m, days_in_month y m <= 31.
Proof. intros y m. unfold days_in_month. destruct (Z.eqb m 2), (is_leap y), (existsb (Z.eqb m) [4; 6; 9; 11]); lia. Qed.

Lemma strptime_strftime : forall y m d,
  1000 <= y <= 9999 -> 1 <= m <= 12 -> 1 <= d <= days_in_month y m ->
  strptime_ymd (strftime_ymd y m d) = Some (y, m, d).
Proof.
  intros y m d Hy Hm Hd.
  pose proof (days_in_month_le_31 y m) as H31.
  destruct (pad4_digits y Hy) as (a & b & c & e & Hp & Ha & Hb & Hc & He & Hv).
  assert (Hdm : Z.leb d (days_in_month y m) = true) by (apply Z.leb_le; lia).
  assert (H1 : Z.leb 1 y = true) by (apply Z.leb_le; lia).
  unfold strftime_ymd. rewrite Hp. clear Hp.
  assert (Hm' : m = 1 \/ m = 2 \/ m = 3 \/ m = 4 \/ m = 5 \/ m = 6 \/ m = 7 \/ m = 8 \/ m = 9 \/ m = 10 \/ m = 11 \/ m = 12) by lia.
  assert (Hd' : exists k, (k < 31)%nat /\ d = Z.of_nat (S k)) by (exists (Z.to_nat (d - 1)); lia).
  destruct Hd' as (k & Hk & ->).
  clear Hd H31 Hm.
  destruct Hm' as [->|[->|[->|[->|[->|[->|[->|[->|[->|[->|[-> | ->]]]]]]]]]]];
  do 31 (destruct k as [|k]; [
    match goal with |- context [pad 2 ?x] => let p := eval vm_compute in (pad 2 x) in change (pad 2 x) with p end;
    match goal with |- context [pad 2 ?x] => let p := eval vm_compute in (pad 2 x) in change (pad 2 x) with p end;
    unfold strptime_ymd; simpl; rewrite Ha, Hb, Hc, He; simpl; rewrite Hv;
    repeat match goal with |- context [digit_val ?c] => let v := eval vm_compute in (digit_val c) in change (digit_val c) with v end;
    simpl in Hdm |- *; rewrite H1, Hdm; reflexivity | ]); lia.
Qed.

Lemma digit_val_bounds : forall c, is_digit c = true -> 0 <= digit_val c <= 9.
Proof.
  intros c H. unfold is_digit in H. apply andb_true_iff in H as [H1 H2].
  apply Nat.leb_le in H1, H2. unfold digit_val. lia.
Qed.

Lemma digit_val_pos : forall c, is_digit c = true -> (c =? "0")%char = false -> 1 <= digit_val c.
Proof.
  intros c H H0. unfold is_digit in H. apply andb_true_iff in H as [H1 H2].
  apply Nat.leb_le in H1, H2. unfold digit_val.
  assert (nat_of_ascii c <> 48%nat).
  { intro E. apply Ascii.eqb_neq in H0. apply H0.
    rewrite <- (ascii_nat_embedding c), E. reflexivity. }
  lia.
Qed.

Lemma first_some_In : forall {A B} (f : A -> option B) l x,
  first_some f l = Some x -> exists a, In a l /\ f a = Some x.
Proof.
  intros A B f l x. induction l as [|a l IH]; cbn; [discriminate|].
  destruct (f a) eqn:E.
  - intros [= <-]. eauto.
  - intros H. destruct (IH H) as (a' & ? & ?). eauto.
Qed.

Ltac digit_facts :=
  repeat match goal with
  | H : (?a && ?b)%bool = true |- _ => apply andb_true_iff in H as [? ?]
  | H : negb ?a = true |- _ => apply negb_true_iff in H
  | H : (?a || ?b)%bool = true |- _ => apply orb_true_iff in H as [?|?]
  | H : Z.leb _ _ = true |- _ => apply Z.leb_le in H
  | H : (?c =? ?d)%char = true |- _ => apply Ascii.eqb_eq in H; subst c
  end;
  repeat match goal with
  | H : is_digit ?c = true |- _ =>
      pose proof (digit_val_bounds c H);
      lazymatch goal with
      | H0 : (c =? "0")%char = false |- _ => pose proof (digit_val_pos c H H0); clear H0
      | _ => idtac
      end; clear H
  end.

Lemma month_alternatives_range : forall l m r, In (m, r) (month_alternatives l) -> 1 <= m <= 12.
Proof.
  intros l m r H. unfold month_alternatives in H.
  destruct l as [|a [|b l']]; cbv beta iota in H.
  - contradiction.
  - destruct (is_digit a && negb (a =? "0")%char) eqn:E; cbn [app In] in H; [|contradiction].
    destruct H as [Q|[]]. apply pair_equal_spec in Q as [<- _]. digit_facts. lia.
  - destruct ((a =? "1")%char && is_digit b && Z.leb (digit_val b) 2) eqn:E1;
    destruct ((a =? "0")%char && is_digit b && negb (b =? "0")%char) eqn:E2;
    destruct (is_digit a && negb (a =? "0")%char) eqn:E3; cbn [app In] in H;
    repeat (destruct H as [Q|H]; [apply pair_equal_spec in Q as [<- _]|]); try contradiction; digit_facts; lia.
Qed.

Lemma day_alternatives_pos : forall l d r rs, day_alternatives l = (d, r) :: rs -> 1 <= d.
Proof.
  intros l d r rs H. assert (Hin : In (d, r) (day_alternatives l)) by (rewrite H; left; reflexivity).
  clear H. unfold day_alternatives in Hin.
  destruct l as [|a [|b l']]; cbv beta iota in Hin.
  - contradiction.
  - destruct (is_digit a && negb (a =? "0")%char) eqn:E; cbn [app In] in Hin; [|contradiction].
    destruct Hin as [Q|[]]. apply pair_equal_spec in Q as [<- _]. digit_facts. lia.
  - destruct ((a =? "3")%char && ((b =? "0")%char || (b =? "1")%char)) eqn:E1;
    destruct (((a =? "1")%char || (a =? "2")%char) && is_digit b) eqn:E2;
    destruct ((a =? "0")%char && is_digit b && negb (b =? "0")%char) eqn:E3;
    destruct (is_digit a && negb (a =? "0")%char) eqn:E4;
    destruct ((a =? " ")%char && is_digit b && negb (b =? "0")%char) eqn:E5; cbn [app In] in Hin;
    repeat (destruct Hin as [Q|Hin]; [apply pair_equal_spec in Q as [<- _]|]); try contradiction;
    digit_facts; try discriminate; change (digit_val "1") with 1 in *; change (digit_val "2") with 2 in *;
    change (digit_val "3") with 3 in *; lia.
Qed.

Lemma strptime_ymd_range : forall s y m d, strptime_ymd s = Some (y, m, d) ->
  1 <= m <= 12 /\ 1 <= d <= days_in_month y m.
Proof.
  intros s y m d H. unfold strptime_ymd in H.
  destruct (list_ascii_of_string s) as [|y1 [|y2 [|y3 [|y4 r]]]]; try discriminate.
  destruct (is_digit y1 && is_digit y2 && is_digit y3 && is_digit y4); [|discriminate].
  destruct r as [|c r1]; [discriminate|].
  destruct (c =? "-")%char; [|discriminate].
  match type of H with context [first_some ?f ?l] => destruct (first_some f l) as [[[m' d'] rest]|] eqn:F end;
    [|discriminate].
  destruct rest; [|discriminate].
  destruct (Z.leb 1 _ && Z.leb d' _) eqn:C; [|discriminate].
  injection H as <- <- <-. apply andb_true_iff in C as [_ C]. apply Z.leb_le in C.
  apply first_some_In in F as ([m0 r2] & Hin & Hf).
  apply month_alternatives_range in Hin.
  destruct r2 as [|c' r3]; [discriminate|]. destruct (c' =? "-")%char; [|discriminate].
  destruct (day_alternatives r3) as [|[d0 rest0] rs] eqn:D; [discriminate|].
  injection Hf as <- <- _. apply day_alternatives_pos in D. lia.
Qed.

(** X1: when [start_date] parses as a date of year 1000 or later, [duration]
    is an int [n >= 1], [end_date] is falsy and the date [n - 1] days after
    the start is within year 9999, the dates step of [_normalize_to_schema]
    stores an [end_date] string that parses back to exactly that date. *)
Theorem normalize_dates_end_date_exact : forall dates s y m dd n,
  get dates "start_date" = PStr s ->
  strptime_ymd s = Some (y, m, dd) ->
  1000 <= y ->
  get dates "duration" = PInt n -> 1 <= n ->
  truthy (get dates "end_date") = false ->
  days_from_civil y m dd + (n - 1) <= days_from_civil 9999 12 31 ->
  exists d' e y' m' d'',
    normalize_dates dates = Ok d' /\ get d' "end_date" = PStr e /\
    strptime_ymd e = Some (y', m', d'') /\
    days_from_civil y' m' d'' = days_from_civil y m dd + (n - 1).
Proof.
  intros dates s y m dd n Hs Hp Hy Hn Hn1 He Hmax.
  destruct (strptime_ymd_range s y m dd Hp) as [Hm Hd].
  pose proof (days_in_month_le_31 y m).
  pose proof (dfc_ge_1000 y m dd Hy Hm ltac:(lia)).
  assert (days_from_civil 9999 12 31 = 2932896) by reflexivity.
  assert (days_from_civil 1000 1 1 = -354285) by reflexivity.
  destruct (civil_from_days (days_from_civil y m dd + (n - 1))) as [[y' m'] d''] eqn:Hc.
  destruct (civil_from_days_valid _ _ _ _ Hc) as (Hm' & Hd' & Hz).
  pose proof (days_in_month_le_31 y' m').
  assert (Hy1 : 1000 <= y').
  { destruct (Z.lt_ge_cases y' 1000) as [Hl|]; [|assumption].
    pose proof (dfc_lt_1000 y' m' d'' Hl Hm' ltac:(lia)). lia. }
  assert (Hy2 : y' <= 9999).
  { destruct (Z.lt_ge_cases 9999 y') as [Hl|]; [|assumption].
    pose proof (dfc_gt_9999 y' m' d'' Hl Hm' ltac:(lia)). lia. }
  assert (Hsn : s <> EmptyString) by (intros ->; discriminate).
  exists (dict_set dates "end_date" (PStr (strftime_ymd y' m' d''))), (strftime_ymd y' m' d''), y', m', d''.
  split; [|split; [|split]].
  - unfold normalize_dates. rewrite Hn. cbn [bind]. f_equal.
    unfold _compute_end_date_if_missing. rewrite Hs, Hn, He, Hp.
    cbn [truthy]. replace (String.eqb s EmptyString) with false by (symmetry; apply String.eqb_neq; assumption).
    replace (Z.eqb n 0) with false by (symmetry; apply Z.eqb_neq; lia).
    cbn [negb andb py_int]. replace (Z.ltb 0 n) with true by (symmetry; apply Z.ltb_lt; lia).
    rewrite Hc. replace (Z.ltb timedelta_max_days (n - 1)) with false
      by (symmetry; apply Z.ltb_ge; unfold timedelta_max_days; lia).
    replace (Z.ltb 9999 y') with false by (symmetry; apply Z.ltb_ge; lia). reflexivity.
  - apply get_of_lookup, dict_lookup_set_same.
  - apply strptime_strftime; lia.
  - exact Hz.
Qed.

(** ** SSE parsing and [list_tools] *)

Lemma drop_spaces_app : forall x y,
  drop_spaces (x ++ y)%list = match drop_spaces x with [] => drop_spaces y | z => (z ++ y)%list end.
Proof.
  induction x as [|c x IH]; intros y; cbn; [reflexivity|].
  destruct (is_space c); [apply IH | reflexivity].
Qed.

Lemma rstrip_app : forall a b,
  rstrip (a ++ b)%list = match rstrip b with [] => rstrip a | z => (a ++ z)%list end.
Proof.
  intros a b. unfold rstrip. rewrite rev_app_distr, drop_spaces_app.
  destruct (drop_spaces (rev b)) as [|c z] eqn:E; [reflexivity|].
  rewrite rev_app_distr, rev_involutive. destruct (rev (c :: z)) eqn:F.
  - apply (f_equal (@length ascii)) in F. cbn in F. rewrite length_app in F. cbn in F. lia.
  - reflexivity.
Qed.

Lemma list_ascii_of_string_app : forall s t,
  list_ascii_of_string (s ++ t) = (list_ascii_of_string s ++ list_ascii_of_string t)%list.
Proof. induction s as [|c s IH]; intros t; cbn; [reflexivity | now rewrite IH]. Qed.

Lemma drop_spaces_idem : forall l, drop_spaces (drop_spaces l) = drop_spaces l.
Proof.
  induction l as [|c l IH]; cbn; [reflexivity|].
  destruct (is_space c) eqn:E; [exact IH | cbn; now rewrite E].
Qed.

Lemma drop_spaces_split : forall l, exists s, l = (s ++ drop_spaces l)%list /\ drop_spaces s = [].
Proof.
  induction l as [|c l IH]; cbn; [exists []; auto|].
  destruct (is_space c) eqn:E.
  - destruct IH as (s & Hs & Hd). exists (c :: s). cbn. rewrite E. split; [now f_equal | exact Hd].
  - exists []. auto.
Qed.

Lemma drop_spaces_app_empty : forall s l, drop_spaces s = [] -> drop_spaces (s ++ l)%list = drop_spaces l.
Proof. intros s l H. rewrite drop_spaces_app, H. reflexivity. Qed.

Lemma drop_spaces_head : forall l c r, drop_spaces l = c :: r -> is_space c = false.
Proof.
  induction l as [|x l IH]; cbn; [discriminate|].
  destruct (is_space x) eqn:E; [apply IH | intros c r [= <- _]; exact E].
Qed.

Lemma rstrip_idem : forall l, rstrip (rstrip l) = rstrip l.
Proof. intros l. unfold rstrip. now rewrite rev_involutive, drop_spaces_idem. Qed.

Lemma rstrip_prefix : forall l, exists t, l = (rstrip l ++ t)%list.
Proof.
  intros l. unfold rstrip. destruct (drop_spaces_split (rev l)) as (s & Hs & _).
  exists (rev s). rewrite <- rev_app_distr, <- Hs, rev_involutive. reflexivity.
Qed.

Lemma rstrip_cons_nonspace : forall c l, is_space c = false -> exists r, rstrip (c :: l) = c :: r.
Proof.
  intros c l Hc. change (c :: l) with ([c] ++ l)%list. rewrite rstrip_app.
  destruct (rstrip l) as [|x z]; [|cbn [app]; eauto].
  unfold rstrip. cbn [rev app drop_spaces]. rewrite Hc. cbn [rev app]. eauto.
Qed.

Lemma drop_spaces_nil_iff : forall s, drop_spaces s = [] <-> forallb is_space s = true.
Proof.
  induction s as [|c s IH]; cbn; [tauto|].
  destruct (is_space c); cbn; [exact IH | split; discriminate].
Qed.

Lemma rstrip_empty_space : forall s, drop_spaces s = [] -> rstrip s = [].
Proof.
  intros s H. apply drop_spaces_nil_iff in H. unfold rstrip.
  assert (drop_spaces (rev s) = []) as ->; [|reflexivity].
  apply drop_spaces_nil_iff, forallb_forall. intros x Hx.
  apply in_rev in Hx. exact (proj1 (forallb_forall _ _) H x Hx).
Qed.

Lemma strip_rstrip : forall l, rstrip (drop_spaces (rstrip l)) = rstrip (drop_spaces l).
Proof.
  intros l. destruct (drop_spaces_split l) as (s & Hs & Hd).
  set (l' := drop_spaces l) in *. rewrite Hs at 1. rewrite rstrip_app.
  destruct (rstrip l') as [|c z] eqn:R.
  - rewrite (rstrip_empty_space s Hd). reflexivity.
  - rewrite drop_spaces_app_empty by exact Hd.
    destruct l' as [|c0 l0] eqn:L; [discriminate|].
    assert (Hc0 : is_space c0 = false) by (apply (drop_spaces_head l c0 l0); exact L).
    destruct (rstrip_cons_nonspace c0 l0 Hc0) as (r & Hr). rewrite Hr in R.
    injection R as <- <-. cbn. rewrite Hc0. rewrite <- Hr. apply rstrip_idem.
Qed.

Lemma split_on_nonempty : forall sep l, exists x xs, split_on sep l = x :: xs.
Proof.
  intros sep l. destruct l as [|c r]; cbn; [eauto|].
  destruct (Ascii.eqb c sep); [eauto|]. destruct (split_on sep r); eauto.
Qed.

Lemma split_on_app : forall sep x y, ~ In sep x ->
  exists l ls, split_on sep y = l :: ls /\ split_on sep (x ++ y)%list = (x ++ l)%list :: ls.
Proof.
  intros sep x y. induction x as [|c x IH]; intros Hn.
  - destruct (split_on_nonempty sep y) as (l & ls & E). exists l, ls. cbn. auto.
  - destruct IH as (l & ls & E1 & E2); [intro; apply Hn; right; assumption|].
    exists l, ls. split; [assumption|]. cbn. rewrite E2.
    destruct (Ascii.eqb_spec c sep); [subst; exfalso; apply Hn; left; reflexivity | reflexivity].
Qed.

Lemma split_on_app_sep : forall sep x y, ~ In sep x ->
  split_on sep (x ++ sep :: y)%list = x :: split_on sep y.
Proof.
  intros sep x y Hn. destruct (split_on_app sep x (sep :: y) Hn) as (l & ls & E1 & E2).
  rewrite E2. cbn in E1. rewrite Ascii.eqb_refl in E1. injection E1 as <- <-.
  now rewrite app_nil_r.
Qed.

Lemma split_on_nosep : forall sep x, ~ In sep x -> split_on sep x = [x].
Proof.
  intros sep x Hn. destruct (split_on_app sep x [] Hn) as (l & ls & E1 & E2).
  rewrite app_nil_r in E2. cbn in E1. injection E1 as <- <-. now rewrite app_nil_r in E2.
Qed.

Lemma not_in_prefix : forall (c : ascii) a b, ~ In c (a ++ b)%list -> ~ In c a.
Proof. intros c a b H Hi. apply H, in_or_app. now left. Qed.

(** X2: an SSE reply [event: message] / [data: j] (optionally followed by
    more lines) parses to [json.loads] of the stripped [j], or to [{}] when
    [j] is not JSON. *)
Theorem parse_sse_data_line : forall j rest,
  ~ In newline (list_ascii_of_string j) ->
  rest = EmptyString \/ (exists r, rest = String newline r) ->
  _parse_sse_response ("event: message" ++ String newline ("data:" ++ j ++ rest)) =
  match json_loads (py_strip j) with Some v => v | None => PDict [] end.
Proof.
  intros j rest Hj Hr.
  set (J := list_ascii_of_string j) in *. set (R := list_ascii_of_string rest) in *.
  set (Y := rstrip (J ++ R)%list).
  assert (Hstrip : list_ascii_of_string (py_strip ("event: message" ++ String newline ("data:" ++ j ++ rest)))
                   = (lit "event: message" ++ newline :: lit "data:" ++ Y)%list).
  { set (H0 := (lit "event: message" ++ newline :: lit "data:")%list).
    assert (Ht : list_ascii_of_string ("event: message" ++ String newline ("data:" ++ j ++ rest))
                 = (H0 ++ (J ++ R))%list).
    { rewrite !list_ascii_of_string_app. cbn [list_ascii_of_string]. rewrite !list_ascii_of_string_app.
      subst H0. rewrite <- app_assoc. reflexivity. }
    unfold py_strip. rewrite list_ascii_of_string_of_list_ascii, Ht.
    replace (drop_spaces (H0 ++ (J ++ R))) with (H0 ++ (J ++ R))%list
      by (rewrite drop_spaces_app; subst H0; reflexivity).
    change (rev (drop_spaces (rev ?l))) with (rstrip l).
    rewrite rstrip_app. fold Y. subst H0.
    destruct Y; [reflexivity|]. rewrite <- app_assoc. reflexivity. }
  unfold _parse_sse_response. rewrite Hstrip.
  destruct (split_on_app newline (lit "data:") Y) as (l & ls & E1 & E2); [cbv; intuition discriminate|].
  rewrite split_on_app_sep by (cbv; intuition discriminate). rewrite E2.
  cbn [first_some]. change (strip_prefix (lit "data:") (lit "event: message")) with (@None (list ascii)).
  cbn [first_some strip_prefix lit list_ascii_of_string app Ascii.eqb Bool.eqb andb].
  assert (Hl : py_strip (string_of_list_ascii l) = py_strip j).
  { unfold py_strip. rewrite !list_ascii_of_string_of_list_ascii. fold J. f_equal.
    assert (Hnl : rstrip R = [] -> l = rstrip J).
    { intros Hz. subst Y. rewrite rstrip_app, Hz in E1.
      destruct (rstrip_prefix J) as (t & Ht).
      rewrite split_on_nosep in E1 by (rewrite Ht in Hj; exact (not_in_prefix _ _ _ Hj)).
      now injection E1 as <-. }
    destruct Hr as [-> | (r & ->)].
    - subst R. cbn in Hnl. rewrite Hnl by reflexivity. apply strip_rstrip.
    - subst R. cbn [list_ascii_of_string] in *. destruct (rstrip (newline :: list_ascii_of_string r)) as [|x z] eqn:Z.
      + rewrite Hnl by reflexivity. apply strip_rstrip.
      + subst Y. rewrite rstrip_app, Z in E1.
        destruct (rstrip_prefix (newline :: list_ascii_of_string r)) as (t & Ht).
        rewrite Z in Ht. injection Ht as <- _.
        rewrite split_on_app_sep in E1 by exact Hj. now injection E1 as <-. }
  rewrite Hl. destruct (String.eqb (py_strip j) EmptyString) eqn:Ee; [|reflexivity].
  apply String.eqb_eq in Ee. rewrite Ee. reflexivity.
Qed.

Lemma split_on_head : forall sep l x xs, split_on sep l = x :: xs -> exists b, l = (x ++ b)%list.
Proof.
  intros sep l. induction l as [|c r IH]; intros x xs H; cbn in H.
  - injection H as <- _. exists []. reflexivity.
  - destruct (Ascii.eqb c sep). { injection H as <- _. exists (c :: r). reflexivity. }
    destruct (split_on sep r) as [|y ys] eqn:E.
    + injection H as <- _. exists r. reflexivity.
    + injection H as <- _. destruct (IH y ys eq_refl) as (b & ->). exists b. reflexivity.
Qed.

Lemma split_on_infix : forall sep l line, In line (split_on sep l) ->
  exists a b, l = (a ++ line ++ b)%list.
Proof.
  intros sep l. induction l as [|c r IH]; intros line H; cbn in H.
  - destruct H as [<- | []]. exists [], []. reflexivity.
  - destruct (Ascii.eqb c sep).
    + destruct H as [<- | H]; [exists [], (c :: r); reflexivity|].
      destruct (IH line H) as (a & b & ->). exists (c :: a), b. reflexivity.
    + destruct (split_on sep r) as [|y ys] eqn:E.
      * destruct H as [<- | []]. exists [], r. reflexivity.
      * destruct H as [<- | H].
        -- destruct (split_on_head sep r y ys E) as (b & ->). exists [], b. reflexivity.
        -- destruct (IH line (or_intror H)) as (a & b & ->). exists (c :: a), b. reflexivity.
Qed.

Lemma py_strip_infix : forall s, exists a b,
  list_ascii_of_string s = (a ++ list_ascii_of_string (py_strip s) ++ b)%list.
Proof.
  intros s. unfold py_strip. rewrite list_ascii_of_string_of_list_ascii.
  destruct (drop_spaces_split (list_ascii_of_string s)) as (a & Ha & _).
  destruct (rstrip_prefix (drop_spaces (list_ascii_of_string s))) as (b & Hb).
  exists a, b. change (rev (drop_spaces (rev ?l))) with (rstrip l). rewrite <- Hb. exact Ha.
Qed.

Lemma strip_prefix_app : forall p l r, strip_prefix p l = Some r -> l = (p ++ r)%list.
Proof.
  induction p as [|c p IH]; intros l r H; cbn in H.
  - now injection H as ->.
  - destruct l as [|d l]; [discriminate|]. destruct (Ascii.eqb_spec c d); [subst|discriminate].
    cbn. f_equal. now apply IH.
Qed.

Lemma string_of_list_ascii_app : forall a b,
  string_of_list_ascii (a ++ b)%list = string_of_list_ascii a ++ string_of_list_ascii b.
Proof. induction a as [|c a IH]; intros b; cbn; [reflexivity | now rewrite IH]. Qed.

Lemma prefix_app : forall s t, String.prefix s (s ++ t) = true.
Proof.
  induction s as [|c s IH]; intros t; [destruct t; reflexivity|]. cbn.
  destruct (ascii_dec c c) as [_|n]; [apply IH | contradiction].
Qed.

Lemma str_contains_infix : forall sub a b, str_contains sub (a ++ sub ++ b) = true.
Proof.
  intros sub a b. induction a as [|c a IH].
  - cbn [append]. assert (P := prefix_app sub b). destruct (sub ++ b); unfold str_contains; now rewrite P.
  - cbn [append str_contains].
    destruct (String.prefix sub (String c (a ++ sub ++ b))); [reflexivity | exact IH].
Qed.

(** X3: a reply text that nowhere contains [data:] parses to [{}]. *)
Theorem parse_sse_without_data : forall text,
  str_contains "data:" text = false -> _parse_sse_response text = PDict [].
Proof.
  intros text H. unfold _parse_sse_response.
  destruct (first_some _ _) as [rest|] eqn:F; [|reflexivity]. exfalso.
  apply first_some_In in F as (line & Hin & Hp).
  apply strip_prefix_app in Hp. subst line.
  destruct (split_on_infix _ _ _ Hin) as (a & b & Hab).
  destruct (py_strip_infix text) as (a' & b' & Hs).
  rewrite Hab in Hs.
  assert (E : text = string_of_list_ascii (a' ++ a)%list ++ "data:"
                     ++ string_of_list_ascii (rest ++ b ++ b')%list).
  { rewrite <- (string_of_list_ascii_of_string text), Hs.
    change "data:" with (string_of_list_ascii (lit "data:")).
    rewrite <- !string_of_list_ascii_app. f_equal. rewrite <- !app_assoc. reflexivity. }
  rewrite E, str_contains_infix in H. discriminate.
Qed.


Lemma mapM_as_dict_ok : forall l,
  Forall (fun t => exists td, t = PDict td) l ->
  exists ys, mapM (fun t => d <- as_dict t ;; Ok (get d "name")) l = Ok ys.
Proof.
  induction 1 as [|x l [td ->] _ [ys IH]]; cbn; [eauto|]. rewrite IH. cbn. eauto.
Qed.

(** X5: a 200 SSE reply whose data is [{"result": {"tools": tools}}], with
    [tools] a list of dicts, makes [list_tools] return [tools] unchanged. *)
Theorem list_tools_returns_server_tools : forall si io j rest d r tools,
  si = true \/ io = true ->
  ~ In newline (list_ascii_of_string j) ->
  rest = EmptyString \/ (exists r', rest = String newline r') ->
  json_loads (py_strip j) = Some (PDict d) ->
  dict_lookup d "result" = Some (PDict r) ->
  dict_lookup r "tools" = Some (PList tools) ->
  Forall (fun t => exists td, t = PDict td) tools ->
  list_tools si io (TextAnswer 200 ("event: message" ++ String newline ("data:" ++ j ++ rest)))
  = PList tools.
Proof.
  intros si io j rest d r tools Hsi Hj Hrest Hd Hr Ht Hall.
  assert (Hg : negb si && negb io = false) by (destruct Hsi; subst; [|destruct si]; reflexivity).
  unfold list_tools, list_tools_body. rewrite Hg, (parse_sse_data_line j rest Hj Hrest), Hd.
  change (raise_for_status 200) with (@Ok unit tt). cbn [bind py_in].
  assert (Hk : has_key d "result" = true) by (unfold has_key; now rewrite Hr). rewrite Hk.
  cbn [py_index]. rewrite Hr. cbn [bind as_dict]. unfold get_default. rewrite Ht.
  cbn [bind py_len py_iter]. destruct (mapM_as_dict_ok tools Hall) as [ys ->]. reflexivity.
Qed.

Lemma list_tools_shape : forall si io post,
  truthy (list_tools si io post) = false \/
  exists l, list_tools si io post = PList l /\ Forall (fun t => exists td, t = PDict td) l.
Proof.
  intros si io post. unfold list_tools.
  destruct (negb si && negb io); [left; reflexivity|].
  destruct (list_tools_body post) as [tools|e] eqn:E; [|left; reflexivity].
  destruct post as [e|status text]; [discriminate|]. cbn [list_tools_body] in E.
  destruct (raise_for_status status); cbn [bind] in E; [|discriminate].
  destruct (py_in "result" _) as [hr|]; cbn [bind] in E; [|discriminate].
  destruct hr.
  - destruct (py_index _ "result") as [v|]; cbn [bind] in E; [|discriminate].
    destruct (as_dict v) as [d|]; cbn [bind] in E; [|discriminate].
    set (t := get_default d "tools" (PList [])) in E.
    destruct (py_len t); cbn [bind] in E; [|discriminate].
    destruct (py_iter t) as [it|] eqn:I; cbn [bind] in E; [|discriminate].
    destruct (mapM _ it) as [l|] eqn:M; cbn [bind] in E; [|discriminate].
    injection E as <-.
    assert (Hall : Forall (fun t => exists td, t = PDict td) it).
    { clear I. revert l M. induction it as [|x it IH]; intros l M; [constructor|].
      cbn in M. destruct x; cbn in M; try discriminate.
      destruct (mapM _ it) eqn:M'; cbn in M; [|discriminate].
      constructor; [eauto | eapply IH; eauto]. }
    destruct t as [| | | | s | l0 | d0]; cbn in I; try discriminate; injection I as <-.
    + left. destruct s as [|c s]; [reflexivity|]. inversion Hall as [|? ? [? Hc] _]. discriminate.
    + right. eauto.
    + left. destruct d0 as [|[k v0] d0]; [reflexivity|]. inversion Hall as [|? ? [? Hc] _]. discriminate.
  - destruct (py_in "error" _); cbn [bind] in E; [|discriminate]. injection E as <-. left. reflexivity.
Qed.

Lemma mapM_convert_keys : forall l,
  Forall (fun t => exists td, t = PDict td) l ->
  exists tools, mapM convert_mcp_tool_to_anthropic l = Ok tools /\
  Forall (fun t => dict_keys t = Some ["name"; "description"; "input_schema"]) tools.
Proof.
  induction 1 as [|x l [td ->] _ [ys [IH Hys]]]; cbn; [eauto|].
  rewrite IH. cbn. eexists. split; [reflexivity|]. constructor; [reflexivity | exact Hys].
Qed.

(** X6: whatever [list_tools] yields (including after an HTTP failure), a
    first [get_mcp_tools_schema] call with no cache does not raise, asks the
    server once, caches what it returns, and every cached tool has exactly
    the keys [name], [description], [input_schema]. *)
Theorem tools_schema_from_server : forall si io post s,
  cached s = None ->
  exists tools,
    get_mcp_tools_schema (list_tools si io post) s = (Ok tools, mkTools (Some tools) (S (server_fetches s))) /\
    Forall (fun t => dict_keys t = Some ["name"; "description"; "input_schema"]) tools.
Proof.
  intros si io post s Hc. unfold get_mcp_tools_schema. rewrite Hc.
  destruct (list_tools_shape si io post) as [F | (l & E & Hall)].
  - rewrite F. cbn. eauto.
  - rewrite E. destruct (truthy (PList l)).
    + cbn [negb py_iter bind]. destruct (mapM_convert_keys l Hall) as (tools & -> & Hk). eauto.
    + cbn. eauto.
Qed.

(** ** Plan shape *)






Lemma mapM_forallb : forall (f : PyVal -> result PyVal) (p : PyVal -> bool) l l',
  (forall x y, f x = Ok y -> p y = true) -> mapM f l = Ok l' -> forallb p l' = true.
Proof.
  intros f p l. induction l as [|x l IH]; intros l' Hf H; cbn in H.
  - now injection H as <-.
  - destruct (f x) as [y|] eqn:Ex; cbn [bind] in H; [|discriminate].
    destruct (mapM f l) as [ys|] eqn:El; cbn [bind] in H; [|discriminate].
    injection H as <-. cbn. rewrite (Hf x y Ex). now apply IH.
Qed.

Lemma get_dict_set_same : forall d k v, get (dict_set d k v) k = v.
Proof.
  intros d k v. unfold get, get_default.
  induction d as [| [k' v'] r IH]; cbn.
  - now rewrite String.eqb_refl.
  - destruct (String.eqb k k') eqn:E; cbn; rewrite E; [reflexivity | apply IH].
Qed.

Lemma update_key_all_in : forall f p d k d',
  (forall x y, f x = Ok y -> p y = true) ->
  update_key f d k = Ok d' -> all_in p (get d' k) = true.
Proof.
  intros f p d k d' Hf H. unfold update_key in H.
  destruct (map_iter f _) as [v'|] eqn:M; cbn [bind] in H; [|discriminate]. injection H as <-.
  destruct (has_key d k) eqn:Hk.
  - rewrite get_dict_set_same. unfold map_iter in M.
    destruct (get_default d k (PList [])) as [| | | | s | l | dd];
      try (destruct (py_iter _) as [it|]; cbn [bind] in M; [|discriminate];
           destruct (mapM f it); cbn [bind] in M; [|discriminate]; injection M as <-; reflexivity).
    destruct (mapM f l) as [l'|] eqn:Ml; cbn [bind] in M; [|discriminate]. injection M as <-.
    cbn. exact (mapM_forallb f p l l' Hf Ml).
  - unfold has_key in Hk. unfold get, get_default. destruct (dict_lookup d k); [discriminate | reflexivity].
Qed.

Lemma fix_item_clean : forall x y, fix_item x = Ok y -> type_clean y = true.
Proof.
  intros x y H. unfold fix_item in H.
  destruct (py_in "type" x) as [ht|] eqn:Hin; cbn [bind] in H; [|discriminate].
  destruct ht.
  - destruct (py_index x "type") as [o|] eqn:Hix; cbn [bind] in H; [|discriminate].
    destruct x as [| | | | s | l | d]; cbn in Hix; try discriminate.
    destruct (dict_lookup d "type") as [o'|] eqn:L; [injection Hix as <-|discriminate].
    assert (Hg : get d "type" = o') by (unfold get, get_default; now rewrite L).
    destruct o' as [| | | | s | l | dd]; try discriminate; try (injection H as <-; cbn; now rewrite Hg).
    destruct (str_assoc type_mapping s) as [t|] eqn:A.
    + destruct (String.eqb s t) eqn:St.
      * apply String.eqb_eq in St. subst t. exfalso.
        unfold type_mapping, str_assoc in A.
        repeat match type of A with
               | (if String.eqb ?k ?x then _ else _) = _ =>
                   destruct (String.eqb_spec k x); [injection A as A; subst; discriminate | ]
               end; discriminate.
      * injection H as <-. cbn [type_clean]. rewrite get_dict_set_same.
        unfold type_mapping, str_assoc in A.
        repeat match type of A with
               | (if String.eqb ?k ?x then _ else _) = _ =>
                   destruct (String.eqb k x); [injection A as <- | ]
               end; try discriminate; reflexivity.
    + injection H as <-. cbn [type_clean]. now rewrite Hg, A.
  - injection H as <-. destruct x as [| | | | s | l | d]; try reflexivity.
    cbn in Hin. injection Hin as Hk. cbn [type_clean]. unfold get, get_default.
    unfold has_key in Hk. destruct (dict_lookup d "type"); [discriminate | reflexivity].
Qed.

Lemma fix_block_clean : forall x y, fix_block x = Ok y -> block_clean y = true.
Proof.
  intros x y H. unfold fix_block in H.
  destruct (as_dict x) as [b|]; cbn [bind] in H; [|discriminate].
  destruct (update_key fix_item b "items") as [b'|] eqn:U; cbn [bind] in H; [|discriminate].
  injection H as <-. exact (update_key_all_in _ _ _ _ _ fix_item_clean U).
Qed.

Lemma fix_day_clean : forall x y, fix_day x = Ok y -> day_clean y = true.
Proof.
  intros x y H. unfold fix_day in H.
  destruct (as_dict x) as [b|]; cbn [bind] in H; [|discriminate].
  destruct (update_key fix_block b "blocks") as [b'|] eqn:U; cbn [bind] in H; [|discriminate].
  injection H as <-. exact (update_key_all_in _ _ _ _ _ fix_block_clean U).
Qed.

Lemma normalize_block_item_types_clean : forall data v,
  _normalize_block_item_types data = Ok v -> (exists d, v = PDict d) /\ plan_clean v = true.
Proof.
  intros data v H. unfold _normalize_block_item_types in H.
  destruct (as_dict data) as [d|]; cbn [bind] in H; [|discriminate].
  destruct (update_key fix_day d "days") as [d'|] eqn:U; cbn [bind] in H; [|discriminate].
  injection H as <-. split; [eauto|]. exact (update_key_all_in _ _ _ _ _ fix_day_clean U).
Qed.

(** X8: whenever [_json_only_guard] returns, its result is a dict, and no
    item of any block of any day still has a string [type] among the
    legacy names that [_normalize_block_item_types] renames. *)
Theorem json_guard_item_types_clean : forall text v,
  _json_only_guard text = Ok v -> (exists d, v = PDict d) /\ plan_clean v = true.
Proof.
  intros text v H. unfold _json_only_guard in H.
  destruct (String.eqb (py_strip text) EmptyString); [discriminate|].
  destruct (json_loads text) as [data|]; [exact (normalize_block_item_types_clean _ _ H)|].
  destruct (brace_span text) as [e|]; [|discriminate].
  destruct (json_loads e) as [data|]; [exact (normalize_block_item_types_clean _ _ H)|discriminate].
Qed.

(** ** Pool life cycle *)

Module PoolLifeProofs.
Import Pool PoolLife.

Lemma put_all_room : forall max_size rs idle,
  (max_size = 0 \/ idle + count_ok rs <= max_size)%nat ->
  put_all max_size rs idle = Some (idle + count_ok rs)%nat.
Proof.
  intros max_size rs. induction rs as [|[|] r IH]; intros idle H; cbn [put_all count_ok] in *.
  - f_equal. lia.
  - unfold queue_full. destruct H as [-> | H].
    + cbn. rewrite IH by auto. f_equal. lia.
    + replace ((0 <? max_size)%nat && (max_size <=? idle)%nat)%bool with false.
      * rewrite IH by lia. f_equal. lia.
      * symmetry. apply andb_false_iff. right. apply Nat.leb_gt. lia.
  - apply IH. exact H.
Qed.

Lemma put_all_full : forall max_size rs idle,
  (0 < max_size)%nat -> (idle <= max_size)%nat -> (max_size < idle + count_ok rs)%nat ->
  put_all max_size rs idle = None.
Proof.
  intros max_size rs. induction rs as [|[|] r IH]; intros idle H0 Hi H; cbn [put_all count_ok] in *.
  - lia.
  - unfold queue_full. destruct (Nat.leb_spec max_size idle).
    + replace (0 <? max_size)%nat with true by (symmetry; apply Nat.ltb_lt; lia). reflexivity.
    + rewrite andb_false_r. apply IH; lia.
  - apply IH; assumption.
Qed.

(** X9: [warmup] of a pool not yet initialised puts every successfully
    created session in the queue and sets [total_created] to their number
    (when the queue has room for them); when they do not fit in a bounded
    queue that starts within its bound, the [put] of [warmup] blocks
    forever ([None]). *)
Theorem warmup_outcome : forall max_size rs p,
  initialized p = false ->
  let c := ctr p in
  ((max_size = 0 \/ c_idle c + count_ok rs <= max_size)%nat ->
   warmup max_size rs p =
   Some (mkPool true (mkCounters (c_idle c + count_ok rs) (count_ok rs) (c_total_requests c)
                                 (c_cache_hits c) (c_cache_misses c) (c_active_sessions c)))) /\
  ((0 < max_size)%nat -> (c_idle c <= max_size)%nat -> (max_size < c_idle c + count_ok rs)%nat ->
   warmup max_size rs p = None).
Proof.
  intros max_size rs p Hi c. unfold warmup. rewrite Hi. split.
  - intros H. rewrite put_all_room by exact H. reflexivity.
  - intros H0 Hi' H. rewrite put_all_full by assumption. reflexivity.
Qed.

(** X10: at startup, [initialize_mcp_pool] on the fresh global pool (5
    warm-up attempts, [max_size] 10) yields an initialised pool whose idle
    and created counts equal the successful attempts (at most 5), and from
    it no interleaving of [get_session] calls creates more than 10 sessions. *)
Theorem startup_pool_bounded : forall rs,
  length rs = global_pool_size ->
  exists p, initialize_mcp_pool rs new_pool = Some p /\
    initialized p = true /\
    c_idle (ctr p) = count_ok rs /\ c_total_created (ctr p) = count_ok rs /\
    (count_ok rs <= global_pool_size)%nat /\
    forall s, reachable global_max_size (quiescent p) s -> (total_created s <= global_max_size)%nat.
Proof.
  intros rs Hl.
  assert (Hc : (count_ok rs <= length rs)%nat).
  { clear Hl. induction rs as [|[|] r IH]; cbn; lia. }
  replace (initialize_mcp_pool rs new_pool) with (warmup global_max_size rs new_pool) by reflexivity.
  destruct (warmup_outcome global_max_size rs new_pool eq_refl) as [Hok _].
  rewrite Hok by (right; cbn; unfold global_pool_size, global_max_size in *; lia).
  eexists. split; [reflexivity|]. cbn. split; [reflexivity|]. split; [reflexivity|]. split; [reflexivity|].
  split; [unfold global_pool_size in *; lia|].
  intros s Hr. eapply PoolProofs.inv_reachable; [|exact Hr].
  unfold initial, quiescent. cbn. unfold global_pool_size, global_max_size in *.
  split; [lia | split; [reflexivity | reflexivity]].
Qed.

(** X11: [shutdown] empties the queue and marks the pool uninitialised, but
    leaves [total_created] as it was; so when [total_created] had reached
    [max_size], a [get_session] after the shutdown finds no idle session,
    may not create one, and waits for a release. *)
Theorem shutdown_exhausted_pool_blocks : forall max_size init_ok p,
  (max_size <= c_total_created (ctr p))%nat ->
  initialized (shutdown p) = false /\ c_idle (ctr (shutdown p)) = 0%nat /\
  c_total_created (ctr (shutdown p)) = c_total_created (ctr p) /\
  acquire max_size init_ok (ctr (shutdown p)) = Blocked.
Proof.
  intros max_size init_ok p H. split; [reflexivity | split; [reflexivity | split; [reflexivity|]]].
  unfold acquire, shutdown. cbn [c_idle ctr c_total_created].
  destruct (Nat.ltb_spec (c_total_created (ctr p)) max_size); [lia | reflexivity].
Qed.

(** X12: a [get_session] use that obtains a session or fails to create one
    adds one to [total_requests], keeps [total_requests = cache_hits +
    cache_misses], and leaves [active_sessions] as it was. *)
Theorem get_session_stats_balanced : forall max_size init_ok c c',
  c_total_requests c = (c_cache_hits c + c_cache_misses c)%nat ->
  acquire_release max_size init_ok c = Acquired c' \/ acquire_release max_size init_ok c = AcquireRaised c' ->
  c_total_requests c' = S (c_total_requests c) /\
  c_total_requests c' = (c_cache_hits c' + c_cache_misses c')%nat /\
  c_active_sessions c' = c_active_sessions c.
Proof.
  intros max_size init_ok c c' Hb H. unfold acquire_release, acquire in H.
  destruct (0 <? c_idle c)%nat; [|destruct (c_total_created c <? max_size)%nat; [destruct init_ok|]];
    cbn in H; destruct H as [H | H]; try discriminate; injection H as <-; cbn; lia.
Qed.

End PoolLifeProofs.

(** ** [_map_mcp_bus] *)

Lemma append_buses_shape : forall bs,
  (length (append_buses bs) <= length bs)%nat /\
  Forall (fun e => exists b, e = bus_entry b) (append_buses bs).
Proof.
  induction bs as [|x r [IHl IHf]]; [split; [cbn; lia | constructor]|].
  destruct x as [| | | | | |d]; cbn [append_buses length]; try (split; [lia | apply Forall_nil]).
  split; [lia|]. constructor; [exists d; reflexivity | exact IHf].
Qed.

Lemma append_buses_dicts_length : forall bs,
  Forall (fun b => exists d, b = PDict d) bs -> length (append_buses bs) = length bs.
Proof.
  intros bs H. induction H as [|x r (d & ->) _ IH]; [reflexivity|]. cbn. f_equal. exact IH.
Qed.

Lemma slice5_iter_length : forall v bs, slice5_iter v = Ok bs -> (length bs <= 5)%nat.
Proof.
  intros v bs H. destruct v as [| | | |s|l|]; unfold slice5_iter in H; try discriminate;
    [set (f := firstn 5 (list_ascii_of_string s)) in H | set (f := firstn 5 l) in H];
    assert (Hl : (length f <= 5)%nat) by (subst f; rewrite length_firstn; lia);
    clearbody f; injection H as <-; rewrite ?length_map; exact Hl.
Qed.

(** X13: [_map_mcp_bus] returns at most 5 entries; each is a dict with
    exactly the keys [mode], [operator], [departureTime], [arrivalTime],
    [duration], [price], [currency], [bookingUrl], with [mode] "bus" and a
    truthy [operator]. *)
Theorem map_mcp_bus_shape : forall data,
  (length (_map_mcp_bus data) <= 5)%nat /\
  Forall (fun e => dict_keys e = Some bus_entry_keys /\
                   match e with
                   | PDict d => get d "mode" = PStr "bus" /\ truthy (get d "operator") = true
                   | _ => False
                   end) (_map_mcp_bus data).
Proof.
  intros data. unfold _map_mcp_bus.
  destruct (map_mcp_bus_body data) as [out|e] eqn:Hb; [|split; [cbn; lia | constructor]].
  unfold map_mcp_bus_body in Hb. split_binds Hb. injection Hb as <-.
  destruct (append_buses_shape a2) as [Hl Hf]. split.
  - pose proof (slice5_iter_length _ _ ltac:(eassumption)). lia.
  - eapply Forall_impl; [|exact Hf]. intros e (b & ->). split; [reflexivity|].
    cbn -[py_or]. split; [reflexivity|].
    unfold py_or at 1. destruct (truthy (py_or (get b "operator") (get b "company"))) eqn:T; [exact T|reflexivity].
Qed.

(** X14: an MCP reply [{"content": [{"type": "text", "text": s}]}] whose
    [s] is a JSON object without [content] maps exactly like that object
    itself, whatever else the object holds; and when the object has a
    non-empty list of bus dicts under [buses], one entry is produced for
    each of the first five buses. *)
Theorem map_mcp_bus_unwraps_content : forall s v,
  json_loads s = Some (PDict v) -> has_key v "content" = false ->
  _map_mcp_bus (PDict [("content", PList [PDict [("type", PStr "text"); ("text", PStr s)]])]) =
  _map_mcp_bus (PDict v) /\
  forall bs, get v "buses" = PList bs -> bs <> [] -> Forall (fun b => exists d, b = PDict d) bs ->
    length (_map_mcp_bus (PDict v)) = Nat.min 5 (length bs).
Proof.
  intros s v Hj Hc.
  assert (Hv : map_mcp_bus_body (PDict v) = (d <- as_dict (PDict v) ;;
                 let buses := py_or (py_or (py_or (get d "buses") (get d "options")) (get d "results")) (PList []) in
                 bs <- slice5_iter buses ;; Ok (append_buses bs))).
  { unfold map_mcp_bus_body. cbn [py_in bind]. rewrite Hc. reflexivity. }
  split.
  - unfold _map_mcp_bus. rewrite Hv. unfold map_mcp_bus_body.
    cbn -[json_loads py_or slice5_iter append_buses get as_dict].
    change (get [("type", PStr "text"); ("text", PStr s)] "type") with (PStr "text").
    cbn -[json_loads py_or slice5_iter append_buses get as_dict]. rewrite Hj. reflexivity.
  - intros bs Hbs Hne Hall. unfold _map_mcp_bus. rewrite Hv. cbn [bind as_dict].
    rewrite Hbs. destruct bs as [|b r]; [contradiction|]. cbn [py_or truthy slice5_iter bind].
    rewrite <- (firstn_skipn 5 (b :: r)) in Hall. apply Forall_app in Hall as [Hf _].
    rewrite append_buses_dicts_length by exact Hf. apply length_firstn.
Qed.

(** ** [_extract_first_json_block] *)

Lemma find_char_app : forall c p r i, ~ In c p ->
  find_char c (p ++ c :: r)%list i = i + Z.of_nat (length p).
Proof.
  intros c p. induction p as [|x p IH]; intros r i H; cbn [app find_char length].
  - rewrite Ascii.eqb_refl. lia.
  - destruct (Ascii.eqb_spec x c) as [->|Hx]; [exfalso; apply H; left; reflexivity|].
    rewrite IH by (intros Hi; apply H; right; exact Hi). lia.
Qed.

Lemma substring_app_l : forall p t n, substring (String.length p) n (p ++ t) = substring 0 n t.
Proof. induction p as [|c p IH]; intros t n; [reflexivity|]. cbn. apply IH. Qed.

Lemma substring_full : forall t u, substring 0 (String.length t) (t ++ u) = t.
Proof. induction t as [|c t IH]; intros u; cbn; [destruct u; reflexivity | now rewrite IH]. Qed.

Lemma str_append_assoc : forall a b c, (a ++ b) ++ c = a ++ (b ++ c).
Proof. induction a as [|x a IH]; intros b c; cbn; [reflexivity | now rewrite IH]. Qed.

Lemma str_length_append : forall a b, String.length (a ++ b) = (String.length a + String.length b)%nat.
Proof. induction a as [|x a IH]; intros b; cbn; [reflexivity | now rewrite IH]. Qed.

Lemma length_list_ascii : forall s, List.length (list_ascii_of_string s) = String.length s.
Proof. induction s as [|c s IH]; cbn; [reflexivity | now rewrite IH]. Qed.

Theorem extract_first_json_block_roundtrip : forall p m q,
  ~ In lbrace (list_ascii_of_string p) -> ~ In rbrace (list_ascii_of_string q) ->
  _extract_first_json_block (p ++ String lbrace (m ++ String rbrace q)) =
  Ok (String lbrace (m ++ String rbrace EmptyString)).
Proof.
  intros p m q Hp Hq. unfold _extract_first_json_block, str_find, str_rfind.
  rewrite !list_ascii_of_string_app. cbn [list_ascii_of_string].
  rewrite list_ascii_of_string_app. cbn [list_ascii_of_string].
  rewrite find_char_app by exact Hp.
  replace (rev (list_ascii_of_string p ++ lbrace :: list_ascii_of_string m ++ rbrace :: list_ascii_of_string q)%list)
    with (rev (list_ascii_of_string q) ++ rbrace :: rev (list_ascii_of_string p ++ lbrace :: list_ascii_of_string m))%list
    by (repeat (first [rewrite rev_app_distr | progress cbn [rev]]);
        rewrite <- ?app_assoc; cbn [app]; rewrite <- ?app_assoc; reflexivity).
  rewrite find_char_app by (rewrite <- in_rev; exact Hq).
  rewrite !length_app, length_rev. cbn [length]. rewrite length_app. cbn [length].
  rewrite !length_list_ascii.
  set (P := String.length p). set (M := String.length m). set (Q := String.length q).
  replace (Z.eqb (0 + Z.of_nat P) (-1)) with false by (symmetry; apply Z.eqb_neq; lia).
  replace (Z.eqb (0 + Z.of_nat Q) (-1)) with false by (symmetry; apply Z.eqb_neq; lia).
  replace (Z.leb (Z.of_nat (P + S (M + S Q)) - 1 - (0 + Z.of_nat Q)) (0 + Z.of_nat P)) with false
    by (symmetry; apply Z.leb_gt; lia).
  replace (Z.eqb (Z.of_nat (P + S (M + S Q)) - 1 - (0 + Z.of_nat Q)) (-1)) with false
    by (symmetry; apply Z.eqb_neq; lia).
  cbn [orb]. f_equal.
  replace (Z.to_nat (0 + Z.of_nat P)) with (String.length p) by (subst P; lia).
  rewrite substring_app_l.
  replace (Z.to_nat (Z.of_nat (P + S (M + S Q)) - 1 - (0 + Z.of_nat Q) + 1 - (0 + Z.of_nat P)))
    with (String.length (String lbrace (m ++ String rbrace EmptyString))).
  - replace (String lbrace (m ++ String rbrace q)) with (String lbrace (m ++ String rbrace EmptyString) ++ q)
      by (cbn [append]; rewrite str_append_assoc; reflexivity).
    apply substring_full.
  - cbn [String.length]. rewrite str_length_append. cbn [String.length]. subst P M Q. lia.
Qed.

(** X15: for any reply [p + "{" + m + "}" + q] where [p] has no "{" and
    [q] no "}", [_extract_first_json_block] returns ["{" + m + "}"]; when
    the whole reply is not JSON, [parse_prompt] decodes that block instead
    (its decoding error, if the block is not JSON either, is what is
    raised). *)
Theorem extract_first_json_block_from_prose : forall p m q,
  ~ In lbrace (list_ascii_of_string p) -> ~ In rbrace (list_ascii_of_string q) ->
  _extract_first_json_block (p ++ String lbrace (m ++ String rbrace q)) =
    Ok (String lbrace (m ++ String rbrace EmptyString)) /\
  (json_loads (p ++ String lbrace (m ++ String rbrace q)) = None ->
   parse_prompt_json (p ++ String lbrace (m ++ String rbrace q)) =
   match json_loads (String lbrace (m ++ String rbrace EmptyString)) with
   | Some v => Ok v
   | None => Err json_decode_error
   end).
Proof.
  intros p m q Hp Hq. pose proof (extract_first_json_block_roundtrip p m q Hp Hq) as He.
  split; [exact He|]. intros Hn. unfold parse_prompt_json. rewrite Hn, He. reflexivity.
Qed.

(** ** [_map_mcp_weather] *)

Lemma append_days_entries : forall ds, Forall (fun e => exists d, e = weather_entry d) (append_days ds).
Proof.
  induction ds as [|x r IH]; [constructor|].
  destruct x as [| | | | | |d]; cbn [append_days]; try apply Forall_nil.
  constructor; [exists d; reflexivity | exact IH].
Qed.

Lemma append_days_dicts_length : forall ds,
  Forall (fun b => exists d, b = PDict d) ds -> length (append_days ds) = length ds.
Proof. intros ds H. induction H as [|x r (d & ->) _ IH]; [reflexivity|]. cbn. f_equal. exact IH. Qed.

(** X16: [_map_mcp_weather] returns, whatever its input, a list of dicts
    with exactly the keys [dateISO], [highC], [lowC],
    [precipitationChance], [source], [isForecast], where [isForecast] is
    [True] and [source] is truthy. *)
Theorem map_mcp_weather_entries : forall data,
  Forall (fun e => dict_keys e = Some weather_entry_keys /\
                   match e with
                   | PDict d => get d "isForecast" = PBool true /\ truthy (get d "source") = true
                   | _ => False
                   end) (_map_mcp_weather data).
Proof.
  intros data. unfold _map_mcp_weather.
  destruct (d <- as_dict data ;; _) as [out|e] eqn:Hb; [|constructor].
  split_binds Hb. injection Hb as <-.
  eapply Forall_impl; [|apply append_days_entries]. intros e (b & ->). split; [reflexivity|].
  cbn -[py_or]. split; [reflexivity|].
  unfold py_or at 1. destruct (truthy (get b "source")) eqn:T; [exact T | reflexivity].
Qed.

(** X17: when [days] is a non-empty list of dicts, or [days] is falsy and
    [forecast] is a list of dicts, [_map_mcp_weather] gives one entry per
    day. *)
Theorem map_mcp_weather_one_per_day : forall d days,
  ((get d "days" = PList days /\ days <> []) \/ (truthy (get d "days") = false /\ get d "forecast" = PList days)) ->
  Forall (fun x => exists dd, x = PDict dd) days ->
  length (_map_mcp_weather (PDict d)) = length days.
Proof.
  intros d days Hd Hall. unfold _map_mcp_weather. cbn [bind as_dict].
  assert (E : py_or (py_or (get d "days") (get d "forecast")) (PList []) = PList days).
  { destruct Hd as [[H Hne] | [H1 H2]].
    - rewrite H. destruct days as [|x r]; [contradiction | reflexivity].
    - unfold py_or at 2. rewrite H1, H2. unfold py_or. destruct days; reflexivity. }
  rewrite E. cbn [bind py_iter]. apply append_days_dicts_length. exact Hall.
Qed.


(** ** Witnesses *)

Lemma not_in_of_existsb : forall (c : ascii) l, existsb (Ascii.eqb c) l = false -> ~ In c l.
Proof.
  intros c l H Hi. assert (E : existsb (Ascii.eqb c) l = true).
  { apply existsb_exists. exists c. split; [exact Hi | apply Ascii.eqb_refl]. }
  congruence.
Qed.

Lemma normalize_dates_end_date_exact_witness :
  exists d' e y' m' d'', normalize_dates sample_dates = Ok d' /\ get d' "end_date" = PStr e /\
    strptime_ymd e = Some (y', m', d'') /\ days_from_civil y' m' d'' = days_from_civil 2024 2 27 + (5 - 1).
Proof.
  apply (normalize_dates_end_date_exact sample_dates "2024-02-27" 2024 2 27 5);
    [reflexivity | vm_compute; reflexivity | lia | reflexivity | lia | reflexivity
    | apply Z.leb_le; vm_compute; reflexivity].
Defined.

Lemma parse_sse_data_line_witness :
  _parse_sse_response ("event: message" ++ String newline ("data:" ++ "{}" ++ EmptyString)) =
  match json_loads (py_strip "{}") with Some v => v | None => PDict [] end.
Proof.
  apply (parse_sse_data_line "{}" EmptyString);
    [apply not_in_of_existsb; vm_compute; reflexivity | left; reflexivity].
Defined.

Lemma parse_sse_without_data_witness : _parse_sse_response "{}" = PDict [].
Proof. apply (parse_sse_without_data "{}"). reflexivity. Defined.


Lemma list_tools_returns_server_tools_witness :
  list_tools true true (TextAnswer 200 ("event: message" ++ String newline ("data:" ++ sample_tools_json ++ EmptyString)))
  = PList [PDict [("name", PStr "a")]].
Proof.
  apply (list_tools_returns_server_tools true true sample_tools_json EmptyString sample_tools_dict
           [("tools", PList [PDict [("name", PStr "a")]])]);
    [left; reflexivity | apply not_in_of_existsb; vm_compute; reflexivity | left; reflexivity
    | vm_compute; reflexivity | reflexivity | reflexivity
    | constructor; [eexists; reflexivity | constructor]].
Defined.

Lemma tools_schema_from_server_witness :
  exists tools, get_mcp_tools_schema (list_tools true true (TextRaises (PyExc "ConnectError" "refused")))
                  (mkTools None 0) = (Ok tools, mkTools (Some tools) 1) /\
    Forall (fun t => dict_keys t = Some ["name"; "description"; "input_schema"]) tools.
Proof. apply (tools_schema_from_server true true (TextRaises (PyExc "ConnectError" "refused")) (mkTools None 0)). reflexivity. Defined.


Lemma json_guard_item_types_clean_witness :
  exists v, _json_only_guard sample_guard_text = Ok v /\ (exists d, v = PDict d) /\ plan_clean v = true.
Proof.
  exists (match _json_only_guard sample_guard_text with Ok p => p | Err _ => PNone end).
  split; [vm_compute; reflexivity|].
  apply (json_guard_item_types_clean sample_guard_text). vm_compute. reflexivity.
Defined.

Lemma warmup_outcome_witness :
  PoolLife.warmup 10 [true; false; true] PoolLife.new_pool =
    Some (PoolLife.mkPool true (Pool.mkCounters 2 2 0 0 0 0)) /\
  PoolLife.warmup 1 [true; true] PoolLife.new_pool = None.
Proof.
  split.
  - destruct (PoolLifeProofs.warmup_outcome 10 [true; false; true] PoolLife.new_pool eq_refl) as [H _].
    apply H. right. vm_compute. lia.
  - destruct (PoolLifeProofs.warmup_outcome 1 [true; true] PoolLife.new_pool eq_refl) as [_ H].
    apply H; vm_compute; lia.
Defined.

Lemma startup_pool_bounded_witness :
  exists p, PoolLife.initialize_mcp_pool [true; false; true; true; false] PoolLife.new_pool = Some p /\
    PoolLife.initialized p = true /\
    Pool.c_idle (PoolLife.ctr p) = PoolLife.count_ok [true; false; true; true; false] /\
    Pool.c_total_created (PoolLife.ctr p) = PoolLife.count_ok [true; false; true; true; false] /\
    (PoolLife.count_ok [true; false; true; true; false] <= PoolLife.global_pool_size)%nat /\
    forall s, Pool.reachable PoolLife.global_max_size (PoolLife.quiescent p) s ->
              (Pool.total_created s <= PoolLife.global_max_size)%nat.
Proof. apply (PoolLifeProofs.startup_pool_bounded [true; false; true; true; false]). reflexivity. Defined.

Lemma shutdown_exhausted_pool_blocks_witness :
  PoolLife.initialized (PoolLife.shutdown (PoolLife.mkPool true (Pool.mkCounters 0 10 7 3 4 0))) = false /\
  Pool.c_idle (PoolLife.ctr (PoolLife.shutdown (PoolLife.mkPool true (Pool.mkCounters 0 10 7 3 4 0)))) = 0%nat /\
  Pool.c_total_created (PoolLife.ctr (PoolLife.shutdown (PoolLife.mkPool true (Pool.mkCounters 0 10 7 3 4 0))))
    = Pool.c_total_created (PoolLife.ctr (PoolLife.mkPool true (Pool.mkCounters 0 10 7 3 4 0))) /\
  Pool.acquire 10 true (PoolLife.ctr (PoolLife.shutdown (PoolLife.mkPool true (Pool.mkCounters 0 10 7 3 4 0))))
    = Pool.Blocked.
Proof.
  apply (PoolLifeProofs.shutdown_exhausted_pool_blocks 10 true (PoolLife.mkPool true (Pool.mkCounters 0 10 7 3 4 0)));
    vm_compute; lia.
Defined.

Lemma get_session_stats_balanced_witness :
  Pool.c_total_requests (Pool.mkCounters 1 1 1 0 1 0) = S (Pool.c_total_requests (Pool.mkCounters 0 0 0 0 0 0)) /\
  Pool.c_total_requests (Pool.mkCounters 1 1 1 0 1 0) =
    (Pool.c_cache_hits (Pool.mkCounters 1 1 1 0 1 0) + Pool.c_cache_misses (Pool.mkCounters 1 1 1 0 1 0))%nat /\
  Pool.c_active_sessions (Pool.mkCounters 1 1 1 0 1 0) = Pool.c_active_sessions (Pool.mkCounters 0 0 0 0 0 0).
Proof.
  apply (PoolLifeProofs.get_session_stats_balanced 10 true (Pool.mkCounters 0 0 0 0 0 0) (Pool.mkCounters 1 1 1 0 1 0));
    [reflexivity | left; reflexivity].
Defined.

Lemma map_mcp_bus_unwraps_content_witness :
  _map_mcp_bus (PDict [("content", PList [PDict [("type", PStr "text"); ("text", PStr sample_bus_json)]])]) =
  _map_mcp_bus (PDict sample_bus_dict) /\
  length (_map_mcp_bus (PDict sample_bus_dict)) = 5%nat.
Proof.
  pose proof (map_mcp_bus_unwraps_content sample_bus_json sample_bus_dict
                ltac:(vm_compute; reflexivity) ltac:(reflexivity)) as [H1 H2].
  split; [exact H1|].
  apply (H2 sample_bus_list); [reflexivity | discriminate | unfold sample_bus_list; cbn [map];
    repeat (apply Forall_cons; [eexists; reflexivity |]); apply Forall_nil].
Defined.

Lemma extract_first_json_block_from_prose_witness :
  _extract_first_json_block ("Here it is: " ++ String lbrace ((dq ++ "a" ++ dq ++ ":1") ++ String rbrace " Done.")) =
    Ok (String lbrace ((dq ++ "a" ++ dq ++ ":1") ++ String rbrace EmptyString)) /\
  (json_loads ("Here it is: " ++ String lbrace ((dq ++ "a" ++ dq ++ ":1") ++ String rbrace " Done.")) = None ->
   parse_prompt_json ("Here it is: " ++ String lbrace ((dq ++ "a" ++ dq ++ ":1") ++ String rbrace " Done."))
   = match json_loads (String lbrace ((dq ++ "a" ++ dq ++ ":1") ++ String rbrace EmptyString)) with
     | Some v => Ok v
     | None => Err json_decode_error
     end) /\
  json_loads ("Here it is: " ++ String lbrace ((dq ++ "a" ++ dq ++ ":1") ++ String rbrace " Done.")) = None /\
  json_loads (String lbrace ((dq ++ "a" ++ dq ++ ":1") ++ String rbrace EmptyString)) = Some (PDict [("a", PInt 1)]).
Proof.
  pose proof (extract_first_json_block_from_prose "Here it is: " (dq ++ "a" ++ dq ++ ":1") " Done."
                ltac:(apply not_in_of_existsb; vm_compute; reflexivity)
                ltac:(apply not_in_of_existsb; vm_compute; reflexivity)) as [HA HB].
  refine (conj HA (conj HB _)). split; vm_compute; reflexivity.
Defined.

Lemma map_mcp_weather_one_per_day_witness :
  length (_map_mcp_weather (PDict sample_forecast_dict)) = 2%nat.
Proof.
  apply (map_mcp_weather_one_per_day sample_forecast_dict
           [PDict [("date", PStr "2025-10-15")]; PDict [("highC", PInt 21)]]);
    [right; split; reflexivity
    | constructor; [eexists; reflexivity | constructor; [eexists; reflexivity | constructor]]].
Defined.
